(** * Priority sampling engine of the trace agent

    A shallow embedding of [pkg/trace/sampler/prioritysampler.go]: the
    [PriorityEngine] with its [Sample] and [applyRate] methods, and the
    [Run]/[Stop] life cycle of its two background loops.

    Go values are modelled as follows.
    - [float64] is Rocq's primitive binary64 float.
    - A [*pb.Span] is an address into a store of spans; a [pb.Trace] is a
      slice of such addresses.  Dereferencing an address that is not in the
      store (a nil pointer) panics, which the model renders as [None].
    - Methods with a pointer receiver thread the engine and the span store
      through a state-and-failure monad [M]. *)

From Stdlib Require Import ZArith Floats Uint63 Ascii DecimalString DecimalN.
From stdpp Require Import base option gmap strings.

Open Scope Z_scope.

Set Warnings "-inexact-float".

(** ** Data model *)

Abbreviation float64 := PrimFloat.float.

(** The address of a span ([*pb.Span]). *)
Abbreviation ptr := N.

(** Modelled from the spec: [pb.Span] is declared in the [pb] package.
    Only the fields the engine touches are kept: the
    service name, the parent identifier (0 for a trace root) and the
    numeric-metric mapping from strings to [float64].  A nil [Metrics] map
    reads like the empty map and is modelled by it. *)
Record Span := mkSpan {
  Service : string;
  ParentID : N;
  Metrics : gmap string float64
}.

(** [pb.Trace]: a slice of span pointers. *)
Abbreviation Trace := (list ptr).

(** Modelled from the spec: [ServiceSignature] is the pair of a service
    name and an environment. *)
Record ServiceSignature := mkServiceSignature {
  Name : string;
  Env : string
}.

(** The numeric identifier of a traffic class. *)
Abbreviation Signature := N.

(** Sampling priorities are integers. *)
Abbreviation SamplingPriority := Z.

Definition deprecatedRateKey : string := "_sampling_priority_rate_v1".
Definition agentRateKey : string := "_dd.agent_psr".
Definition ruleRateKey : string := "_dd.rule_psr".

(** [prioritySamplingRateThresholdTo1] defines the maximum allowed sampling
    rate below 1.  If this is surpassed, the rate is set to 1. *)
Definition prioritySamplingRateThresholdTo1 : float64 := 0.3%float.

#[global] Instance ServiceSignature_eq_dec : EqDecision ServiceSignature.
Proof. solve_decision. Defined.

#[global] Instance ServiceSignature_countable : Countable ServiceSignature.
Proof.
  refine (inj_countable' (fun s => (Name s, Env s))
                         (fun p => mkServiceSignature p.1 p.2) _).
  by intros [].
Defined.

(** Modelled from the spec: the sampler backend lives in another file of
    the package.  It keeps one live counter per signature, incremented by
    [CountSignature], and a separate global counter of sampled traces,
    incremented by [CountSample].  A signature without an entry counts as
    zero, as a missing key of a Go map does. *)
Record MemoryBackend := mkBackend {
  scores : gmap Signature N;
  sampledScore : N
}.

(** Modelled from the spec: the configuration surface of the core sampler
    ([extraRate], [targetTPS], [rateThresholdTo1]) around its backend. *)
Record Sampler := mkSampler {
  Backend : MemoryBackend;
  extraRate : float64;
  targetTPS : float64;
  rateThresholdTo1 : float64
}.

(** Modelled from the spec: the catalog maps each service signature seen so
    far to its numeric signature. *)
Abbreviation serviceKeyCatalog := (gmap ServiceSignature Signature).

(** [PriorityEngine] is the main component of the sampling logic.  The
    fields [rateByService] and [exit] only matter to [Run] and [Stop]; they
    are part of the life-cycle model further down. *)
Record PriorityEngine := mkPriorityEngine {
  sampler : Sampler;
  catalog : serviceKeyCatalog
}.

(** ** The state-and-failure monad *)

(** What a method call can read and write: the engine behind the receiver
    pointer and the spans behind span pointers. *)
Record World := mkWorld {
  engine : PriorityEngine;
  spans : gmap ptr Span
}.

Definition M (A : Type) : Type := World -> option (A * World).

#[global] Instance M_ret : MRet M := fun A (a : A) w => Some (a, w).

#[global] Instance M_bind : MBind M := fun A B (k : A -> M B) (m : M A) w =>
  match m w with
  | Some (a, w') => k a w'
  | None => None
  end.

(** Read the span behind a pointer; a pointer outside the store panics. *)
Definition deref (p : ptr) : M Span := fun w =>
  match spans w !! p with
  | Some sp => Some (sp, w)
  | None => None
  end.

(** Overwrite the span behind a pointer. *)
Definition assign (p : ptr) (sp : Span) : M unit := fun w =>
  match spans w !! p with
  | Some _ => Some (tt, mkWorld (engine w) (<[p := sp]> (spans w)))
  | None => None
  end.

Definition getEngine : M PriorityEngine := fun w => Some (engine w, w).

Definition putEngine (s : PriorityEngine) : M unit := fun w =>
  Some (tt, mkWorld s (spans w)).

(** ** Helpers of the sampler package *)

(** Modelled from the spec: [getMetric] is a lookup in the metric map of
    the span; the boolean tells whether the key was found. *)
Definition getMetric (s : ptr) (k : string) : M (float64 * bool) :=
  sp ← deref s;
  mret (match Metrics sp !! k with
        | Some val => (val, true)
        | None => (0%float, false)
        end).

(** Modelled from the spec: [setMetric] writes one key of the metric map of
    the span and nothing else. *)
Definition setMetric (s : ptr) (key : string) (val : float64) : M unit :=
  sp ← deref s;
  assign s (mkSpan (Service sp) (ParentID sp) (<[key := val]> (Metrics sp))).

(** Modelled from the spec: [CountSignature] increments the live counter of
    the signature. *)
Definition CountSignature (signature : Signature) : M unit :=
  s ← getEngine;
  let b := Backend (sampler s) in
  let b' := mkBackend (<[signature := (default 0 (scores b !! signature) + 1)%N]>
                         (scores b))
                      (sampledScore b) in
  putEngine (mkPriorityEngine
               (mkSampler b' (extraRate (sampler s)) (targetTPS (sampler s))
                          (rateThresholdTo1 (sampler s)))
               (catalog s)).

(** Modelled from the spec: [CountSample] increments the global counter of
    sampled traces, independent of the per-signature counters. *)
Definition CountSample : M unit :=
  s ← getEngine;
  let b := Backend (sampler s) in
  let b' := mkBackend (scores b) (sampledScore b + 1)%N in
  putEngine (mkPriorityEngine
               (mkSampler b' (extraRate (sampler s)) (targetTPS (sampler s))
                          (rateThresholdTo1 (sampler s)))
               (catalog s)).

(** Modelled from the spec: a missing priority metric is read as "no
    priority set", a negative priority. *)
Definition PriorityNone : SamplingPriority := -128.

(** Modelled from the spec: [newSampler] starts the core sampler with its
    configuration and a backend that has counted nothing. *)
Definition newSampler (extraRate targetTPS : float64) : Sampler :=
  mkSampler (mkBackend ∅ 0%N) extraRate targetTPS 1%float.

(** Modelled from the spec: [setRateThresholdTo1] sets the threshold above
    which the core sampler reports a rate as 1. *)
Definition setRateThresholdTo1 (r : float64) (s : Sampler) : Sampler :=
  mkSampler (Backend s) (extraRate s) (targetTPS s) r.

(** Modelled from the spec: [newServiceLookup] is the catalog that has seen
    no service yet. *)
Definition newServiceLookup : serviceKeyCatalog := ∅.

(** [NewPriorityEngine] returns an initialized engine. *)
Definition NewPriorityEngine (extraRate targetTPS : float64) : PriorityEngine :=
  mkPriorityEngine
    (setRateThresholdTo1 prioritySamplingRateThresholdTo1
       (newSampler extraRate targetTPS))
    newServiceLookup.

(** The parts of the sampler package that the engine calls and that live
    in its other files are taken as an interface; everything below holds
    for each of its implementations. *)
Class Package := {
  (** The metric key under which client libraries store the priority. *)
  KeySamplingPriority : string;
  (** The conversion of a metric value to a [SamplingPriority]. *)
  toPriority : float64 -> SamplingPriority;
  (** The identifier the catalog allocates for a service signature it has
      not seen before. *)
  newSignature : serviceKeyCatalog -> ServiceSignature -> Signature;
  (** The rate the core sampler computes for a signature from its scores
      and configuration. *)
  GetSignatureSampleRate : Sampler -> Signature -> float64
}.

Section Engine.

Context {pkg : Package}.

(** Modelled from the spec: reading the client priority is a lookup of the
    priority metric in the metric map of the root; when the metric is
    absent the result is [PriorityNone] and the flag is false. *)
Definition GetSamplingPriority (s : ptr) : M (SamplingPriority * bool) :=
  '(p, ok) ← getMetric s KeySamplingPriority;
  mret (if (ok : bool) then toPriority p else PriorityNone, ok).

(** The priority [GetSamplingPriority] reads off a span. *)
Definition priorityOf (sp : Span) : SamplingPriority * bool :=
  match Metrics sp !! KeySamplingPriority with
  | Some val => (toPriority val, true)
  | None => (PriorityNone, false)
  end.

(** Modelled from the spec: [register] returns the existing identifier if
    the pair was seen before, otherwise it allocates and stores a new
    one. *)
Definition register (svcSig : ServiceSignature) : M Signature :=
  s ← getEngine;
  match catalog s !! svcSig with
  | Some signature => mret signature
  | None =>
      let signature := newSignature (catalog s) svcSig in
      _ ← putEngine (mkPriorityEngine (sampler s)
                       (<[svcSig := signature]> (catalog s)));
      mret signature
  end.

(** ** The engine *)

Definition applyRate (sampled : bool) (root : ptr) (signature : Signature)
  : M unit :=
  rootSpan ← deref root;
  if negb (ParentID rootSpan =? 0)%N then mret tt else
  (* recent tracers annotate roots with applied priority rate;
     agentRateKey is set when the agent computed rate is applied *)
  '(_, ok) ← getMetric root agentRateKey;
  if (ok : bool) then mret tt else
  (* ruleRateKey is set when a tracer rule rate is applied *)
  '(_, ok) ← getMetric root ruleRateKey;
  if (ok : bool) then mret tt else
  (* slow path used by older tracer versions *)
  '(_, ok) ← getMetric root deprecatedRateKey;
  if negb (ok : bool) then
    (* if it's not set add next rate *)
    s ← getEngine;
    let rate := GetSignatureSampleRate (sampler s) signature in
    let rate := if PrimFloat.ltb prioritySamplingRateThresholdTo1 rate
                then 1%float else rate in
    setMetric root deprecatedRateKey rate
  else mret tt.

(** [Sample] counts an incoming trace and returns the trace sampling
    decision. *)
Definition Sample (trace : Trace) (root : ptr) (env : string) : M bool :=
  (* Extra safety, just in case one trace is empty *)
  if (length trace =? 0)%nat then mret false else
  '(samplingPriority, _) ← GetSamplingPriority root;
  (* respect client choice *)
  let sampled := (0 <? samplingPriority) in
  (* Short-circuit and return without counting the trace *)
  if (samplingPriority <? 0) then mret sampled else
  if (1 <? samplingPriority) then mret sampled else
  rootSpan ← deref root;
  signature ← register (mkServiceSignature (Service rootSpan) env);
  (* Update sampler state by counting this trace *)
  _ ← CountSignature signature;
  if sampled then
    _ ← applyRate sampled root signature;
    _ ← CountSample;
    mret sampled
  else mret sampled.

(** Is the metric key missing from the span? *)
Definition absent (sp : Span) (k : string) : bool :=
  match Metrics sp !! k with
  | None => true
  | Some _ => false
  end.

(** The spans [applyRate] annotates: trace roots that carry none of the
    three rate keys. *)
Definition unrated (sp : Span) : bool :=
  (ParentID sp =? 0)%N && absent sp agentRateKey && absent sp ruleRateKey
  && absent sp deprecatedRateKey.

(** The span [setMetric] leaves behind the root when the legacy key is
    written with value [val]. *)
Definition withLegacyRate (sp : Span) (val : float64) : Span :=
  mkSpan (Service sp) (ParentID sp) (<[deprecatedRateKey := val]> (Metrics sp)).

(** The live counter of a signature and the global counter of sampled
    traces, read off the world. *)
Definition scoreOf (w : World) (signature : Signature) : N :=
  default 0%N (scores (Backend (sampler (engine w))) !! signature).

Definition sampledOf (w : World) : N :=
  sampledScore (Backend (sampler (engine w))).

(** Calling [applyRate] once per entry of [calls], each with its own
    arguments, on the same root. *)
Fixpoint applyRates (calls : list (bool * Signature)) (root : ptr) : M unit :=
  match calls with
  | [] => mret tt
  | (sampled, signature) :: rest =>
      _ ← applyRate sampled root signature;
      applyRates rest root
  end.

End Engine.

(** ** The life cycle: [Run] and [Stop]

    [Run] adds two to a wait group, starts the core loop and the rate-sync
    loop as goroutines and waits for the group.  [Stop] calls the [Stop] of
    the core sampler and closes the [exit] channel.  The goroutines are
    modelled by their program points and the scheduler by the choice of the
    next action; every statement of the source is an [Action] of its own,
    the return of a function included. *)
Module Lifecycle.

(** The goroutine that called [Run]. *)
Inductive RunPc :=
  | RunAdd         (* before wg.Add(2) *)
  | RunSpawnCore   (* before the first go statement *)
  | RunSpawnSync   (* before the second go statement *)
  | RunWait        (* blocked in wg.Wait() *)
  | RunAfterWait   (* wg.Wait() has returned, Run has not *)
  | RunReturned.

(** The goroutine around [s.Sampler.Run()]. *)
Inductive CorePc :=
  | CoreNotStarted
  | CoreRunning    (* inside s.Sampler.Run() *)
  | CoreAfterRun   (* s.Sampler.Run() has returned, before wg.Done() *)
  | CoreAfterDone  (* wg.Done() called, the goroutine has not ended *)
  | CoreExited.

(** The goroutine of the periodic rate-sync loop. *)
Inductive SyncPc :=
  | SyncNotStarted
  | SyncNewTicker  (* before time.NewTicker(syncPeriod) *)
  | SyncSelect     (* blocked in the select of the for loop *)
  | SyncAfterExit  (* received from s.exit, before wg.Done() *)
  | SyncAfterDone  (* wg.Done() called, before the return and the
                      deferred t.Stop() *)
  | SyncExited.

(** The goroutine that calls [Stop]. *)
Inductive StopPc :=
  | StopNotCalled
  | StopSampler      (* before s.Sampler.Stop() signals the core loop *)
  | StopSamplerWait  (* inside s.Sampler.Stop(), after the signal *)
  | StopClose        (* before close(s.exit) *)
  | StopAfterClose   (* s.exit is closed, Stop has not returned *)
  | StopReturned.

Record Life := mkLife {
  runPc : RunPc;
  corePc : CorePc;
  syncPc : SyncPc;
  stopPc : StopPc;
  coreStopSignalled : bool;  (* the core sampler was told to stop *)
  exitClosed : bool;         (* s.exit is closed *)
  wg : Z;                    (* the counter of the wait group *)
  published : nat            (* calls of rateByService.SetAll so far *)
}.

Inductive Action :=
  | RunWgAdd | RunGoCore | RunGoSync | RunWgWait | RunReturn
  | CoreRunReturns | CoreWgDone | CoreExit
  | SyncMakeTicker | SyncTick | SyncRecvExit | SyncWgDone | SyncReturn
  | StopCall | StopSignalCore | StopSamplerReturns | StopCloseExit
  | StopReturn.

(** [Run] has just been called; nobody has called [Stop] yet. *)
Definition init : Life :=
  mkLife RunAdd CoreNotStarted SyncNotStarted StopNotCalled false false 0 0.

(** Has [s.Sampler.Run()] returned? *)
Definition coreLoopOver (c : CorePc) : bool :=
  match c with
  | CoreAfterRun | CoreAfterDone | CoreExited => true
  | _ => false
  end.

(** Has the goroutine of the core loop called [wg.Done()]? *)
Definition coreCalledDone (c : CorePc) : bool :=
  match c with
  | CoreAfterDone | CoreExited => true
  | _ => false
  end.

(** Has the goroutine of the rate-sync loop called [wg.Done()]?  It has
    then left its loop for good. *)
Definition syncCalledDone (y : SyncPc) : bool :=
  match y with
  | SyncAfterDone | SyncExited => true
  | _ => false
  end.

Section Steps.

(** The core sampler's [Stop] lives in another file: [joinCore] tells
    whether it returns only once the core loop is over ([true]) or right
    after signalling ([false]). *)
Variable joinCore : bool.

(** One atomic action, when it is enabled.  Modelled from the spec: the
    core sampler's [Run] returns only after its [Stop] has been invoked. *)
Definition fire (a : Action) (l : Life) : option Life :=
  let '(mkLife r c y t sig ex n pub) := l in
  match a with
  | RunWgAdd =>
      match r with
      | RunAdd => Some (mkLife RunSpawnCore c y t sig ex (n + 2) pub)
      | _ => None
      end
  | RunGoCore =>
      match r with
      | RunSpawnCore => Some (mkLife RunSpawnSync CoreRunning y t sig ex n pub)
      | _ => None
      end
  | RunGoSync =>
      match r with
      | RunSpawnSync => Some (mkLife RunWait c SyncNewTicker t sig ex n pub)
      | _ => None
      end
  | RunWgWait =>
      match r with
      | RunWait => if n =? 0 then Some (mkLife RunAfterWait c y t sig ex n pub)
                   else None
      | _ => None
      end
  | RunReturn =>
      match r with
      | RunAfterWait => Some (mkLife RunReturned c y t sig ex n pub)
      | _ => None
      end
  | CoreRunReturns =>
      match c with
      | CoreRunning => if sig then Some (mkLife r CoreAfterRun y t sig ex n pub)
                       else None
      | _ => None
      end
  | CoreWgDone =>
      match c with
      | CoreAfterRun => Some (mkLife r CoreAfterDone y t sig ex (n - 1) pub)
      | _ => None
      end
  | CoreExit =>
      match c with
      | CoreAfterDone => Some (mkLife r CoreExited y t sig ex n pub)
      | _ => None
      end
  | SyncMakeTicker =>
      match y with
      | SyncNewTicker => Some (mkLife r c SyncSelect t sig ex n pub)
      | _ => None
      end
  | SyncTick =>
      match y with
      | SyncSelect => Some (mkLife r c y t sig ex n (S pub))
      | _ => None
      end
  | SyncRecvExit =>
      match y with
      | SyncSelect => if ex then Some (mkLife r c SyncAfterExit t sig ex n pub)
                      else None
      | _ => None
      end
  | SyncWgDone =>
      match y with
      | SyncAfterExit => Some (mkLife r c SyncAfterDone t sig ex (n - 1) pub)
      | _ => None
      end
  | SyncReturn =>
      (* return, then the deferred t.Stop() *)
      match y with
      | SyncAfterDone => Some (mkLife r c SyncExited t sig ex n pub)
      | _ => None
      end
  | StopCall =>
      match t with
      | StopNotCalled => Some (mkLife r c y StopSampler sig ex n pub)
      | _ => None
      end
  | StopSignalCore =>
      match t with
      | StopSampler => Some (mkLife r c y StopSamplerWait true ex n pub)
      | _ => None
      end
  | StopSamplerReturns =>
      match t with
      | StopSamplerWait =>
          if negb joinCore || coreLoopOver c
          then Some (mkLife r c y StopClose sig ex n pub)
          else None
      | _ => None
      end
  | StopCloseExit =>
      match t with
      | StopClose => Some (mkLife r c y StopAfterClose sig true n pub)
      | _ => None
      end
  | StopReturn =>
      match t with
      | StopAfterClose => Some (mkLife r c y StopReturned sig ex n pub)
      | _ => None
      end
  end.

(** A schedule is a list of actions, fired from left to right. *)
Fixpoint schedule (acts : list Action) (l : Life) : option Life :=
  match acts with
  | [] => Some l
  | a :: rest =>
      match fire a l with
      | Some l' => schedule rest l'
      | None => None
      end
  end.

(** The states some schedule reaches from [init]. *)
Definition reachable (l : Life) : Prop :=
  exists acts, schedule acts init = Some l.

(** The number of started-or-announced goroutines that have not yet called
    [wg.Done()]. *)
Definition pending (l : Life) : Z :=
  (if coreCalledDone (corePc l) then 0 else 1) +
  (if syncCalledDone (syncPc l) then 0 else 1).

End Steps.

(** What holds in every state a schedule can reach: the wait group counts
    the goroutines that have not called [wg.Done()], [Run] is past
    [wg.Wait()] only when both have, and [Stop] has made its signals by
    the time it is past them. *)
Definition consistent (l : Life) : Prop :=
  match runPc l with
  | RunAdd =>
      wg l = 0 /\ corePc l = CoreNotStarted /\ syncPc l = SyncNotStarted
  | RunSpawnCore =>
      wg l = pending l /\ corePc l = CoreNotStarted /\ syncPc l = SyncNotStarted
  | RunSpawnSync =>
      wg l = pending l /\ corePc l <> CoreNotStarted /\ syncPc l = SyncNotStarted
  | RunWait =>
      wg l = pending l /\ corePc l <> CoreNotStarted /\ syncPc l <> SyncNotStarted
  | RunAfterWait | RunReturned =>
      wg l = 0 /\ coreCalledDone (corePc l) = true /\
      syncCalledDone (syncPc l) = true
  end /\
  match stopPc l with
  | StopNotCalled | StopSampler => True
  | StopSamplerWait | StopClose => coreStopSignalled l = true
  | StopAfterClose | StopReturned =>
      coreStopSignalled l = true /\ exitClosed l = true
  end.

(** The [exit] channel is closed by [Stop] alone, and the rate-sync loop
    leaves its select only through the closed channel. *)
Definition ordered (l : Life) : Prop :=
  (exitClosed l = true ->
   stopPc l = StopAfterClose \/ stopPc l = StopReturned) /\
  match syncPc l with
  | SyncAfterExit | SyncAfterDone | SyncExited => exitClosed l = true
  | _ => True
  end.





End Lifecycle.

(** ** A concrete package, to run the engine on examples *)
Module Demo.

(** Truncation of a float towards zero, as Go's conversion of a [float64]
    to an integer type does for values in range; not-a-number and the
    infinities go to 0. *)
Definition truncate (f : float64) : Z :=
  match Prim2SF f with
  | S754_finite sign m e =>
      let v := Z.shiftl (Z.pos m) e in
      if sign then - v else v
  | _ => 0
  end.

Definition ofN (n : N) : float64 := PrimFloat.of_uint63 (Uint63.of_Z (Z.of_N n)).

(** A rate in the shape the spec gives it: the target throughput, scaled by
    the extra rate, over the count of the signature, capped at 1; a
    signature without a count gets the extra rate. *)
Definition rateOf (s : Sampler) (signature : Signature) : float64 :=
  match scores (Backend s) !! signature with
  | Some (Npos n) =>
      let r := PrimFloat.div (PrimFloat.mul (extraRate s) (targetTPS s))
                             (ofN (Npos n)) in
      if PrimFloat.ltb 1%float r then 1%float else r
  | _ => extraRate s
  end.

Definition package : Package := {|
  KeySamplingPriority := "_sampling_priority_v1";
  toPriority := truncate;
  newSignature := fun cat _ => N.of_nat (size cat);
  GetSignatureSampleRate := rateOf
|}.

(** An engine that has been running for a while: [sc] are its scores and
    [cat] is its catalog. *)
Definition engineWith (tps : float64) (sc : gmap Signature N)
    (cat : serviceKeyCatalog) : PriorityEngine :=
  mkPriorityEngine
    (mkSampler (mkBackend sc 0%N) 1%float tps prioritySamplingRateThresholdTo1)
    cat.

Definition spanWith (parent : N) (ms : list (string * float64)) : Span :=
  mkSpan "web" parent (list_to_map ms).

(** A trace of two spans, the root at address 1 and its child at 2. *)
Definition worldWith (e : PriorityEngine) (rootMetrics : list (string * float64))
  : World :=
  mkWorld e (<[1%N := spanWith 0 rootMetrics]>
             (<[2%N := spanWith 1 []]> ∅)).

Definition keep : list (string * float64) := [("_sampling_priority_v1", 1%float)].
Definition drop : list (string * float64) := [("_sampling_priority_v1", 0%float)].
Definition userDrop : list (string * float64) := [("_sampling_priority_v1", (-1)%float)].
Definition userKeep : list (string * float64) := [("_sampling_priority_v1", 2%float)].

Definition traceOf2 : Trace := [1%N; 2%N].

(** A new engine, with an empty catalog: every computed rate is 1. *)
Definition wKeep : World := worldWith (NewPriorityEngine 1 10) keep.

(** Signature 0 has been counted twice against a target of one trace per
    second: its raw rate is 0.5. *)
Definition wHalf : World := worldWith (engineWith 1 {[ 0%N := 2%N ]} ∅) keep.

(** Signature 0 has been counted ten times: its raw rate is 0.1. *)
Definition wTenth : World := worldWith (engineWith 1 {[ 0%N := 10%N ]} ∅) keep.

Definition wNoPriority : World := worldWith (NewPriorityEngine 1 10) [].
Definition wDrop : World := worldWith (NewPriorityEngine 1 10) drop.
Definition wUserDrop : World := worldWith (NewPriorityEngine 1 10) userDrop.
Definition wUserKeep : World := worldWith (NewPriorityEngine 1 10) userKeep.

(** The root was already annotated by the agent. *)
Definition agentRated : list (string * float64) :=
  [("_sampling_priority_v1", 1%float); ("_dd.agent_psr", 0.5%float)].
Definition wAgentRated : World := worldWith (NewPriorityEngine 1 10) agentRated.


(** Another package: a constant rate and another allocation of
    signatures. *)
Definition package' : Package := {|
  KeySamplingPriority := "_sampling_priority_v1";
  toPriority := truncate;
  newSignature := fun cat _ => (N.of_nat (size cat) + 100)%N;
  GetSignatureSampleRate := fun _ _ => 0.25%float
|}.

End Demo.

(** * Properties of the engine *)

(** The threshold is the binary64 number nearest to 0.3; it lies below 1. *)
Example threshold_below_one :
  PrimFloat.ltb prioritySamplingRateThresholdTo1 1%float = true.
Proof. reflexivity. Qed.

(** A new engine reports rates above the priority threshold as 1 and has
    counted and catalogued nothing. *)
Example NewPriorityEngine_state (extra tps : float64) :
  rateThresholdTo1 (sampler (NewPriorityEngine extra tps))
  = prioritySamplingRateThresholdTo1 /\
  catalog (NewPriorityEngine extra tps) = ∅ /\
  scores (Backend (sampler (NewPriorityEngine extra tps))) = ∅.
Proof. repeat split. Qed.

Section EngineFacts.

Context {pkg : Package}.

(** ** Running the helpers *)

Lemma bind_run {A B} (m : M A) (k : A -> M B) w a w' :
  m w = Some (a, w') -> (m ≫= k) w = k a w'.
Proof. intros H. unfold mbind, M_bind. by rewrite H. Qed.

Lemma bind_panic {A B} (m : M A) (k : A -> M B) w :
  m w = None -> (m ≫= k) w = None.
Proof. intros H. unfold mbind, M_bind. by rewrite H. Qed.

Lemma deref_run p sp w : spans w !! p = Some sp -> deref p w = Some (sp, w).
Proof. intros H. unfold deref. by rewrite H. Qed.

Lemma deref_panic p w : spans w !! p = None -> deref p w = None.
Proof. intros H. unfold deref. by rewrite H. Qed.

Lemma getMetric_found s k sp val w :
  spans w !! s = Some sp -> Metrics sp !! k = Some val ->
  getMetric s k w = Some ((val, true), w).
Proof.
  intros Hs Hk. unfold getMetric.
  rewrite (bind_run _ _ _ _ _ (deref_run _ _ _ Hs)). by rewrite Hk.
Qed.

Lemma getMetric_missing s k sp w :
  spans w !! s = Some sp -> Metrics sp !! k = None ->
  getMetric s k w = Some ((0%float, false), w).
Proof.
  intros Hs Hk. unfold getMetric.
  rewrite (bind_run _ _ _ _ _ (deref_run _ _ _ Hs)). by rewrite Hk.
Qed.

Lemma getMetric_panic s k w : spans w !! s = None -> getMetric s k w = None.
Proof. intros Hs. unfold getMetric. by rewrite (bind_panic _ _ _ (deref_panic _ _ Hs)). Qed.

Lemma setMetric_run s key val sp w :
  spans w !! s = Some sp ->
  setMetric s key val w =
  Some (tt, mkWorld (engine w)
              (<[s := mkSpan (Service sp) (ParentID sp)
                             (<[key := val]> (Metrics sp))]> (spans w))).
Proof.
  intros Hs. unfold setMetric.
  rewrite (bind_run _ _ _ _ _ (deref_run _ _ _ Hs)).
  unfold assign. by rewrite Hs.
Qed.

Lemma GetSamplingPriority_run s sp w :
  spans w !! s = Some sp ->
  GetSamplingPriority s w = Some (priorityOf sp, w).
Proof.
  intros Hs. unfold GetSamplingPriority, priorityOf.
  destruct (Metrics sp !! KeySamplingPriority) as [val|] eqn:Hk.
  - by rewrite (bind_run _ _ _ _ _ (getMetric_found _ _ _ _ _ Hs Hk)).
  - by rewrite (bind_run _ _ _ _ _ (getMetric_missing _ _ _ _ Hs Hk)).
Qed.

Lemma GetSamplingPriority_panic s w :
  spans w !! s = None -> GetSamplingPriority s w = None.
Proof.
  intros Hs. unfold GetSamplingPriority.
  by rewrite (bind_panic _ _ _ (getMetric_panic _ _ _ Hs)).
Qed.

Lemma GetSamplingPriority_inv s w r w' :
  GetSamplingPriority s w = Some (r, w') ->
  w' = w /\ exists sp, spans w !! s = Some sp /\ r = priorityOf sp.
Proof.
  intros H. destruct (spans w !! s) as [sp|] eqn:Hs.
  - rewrite (GetSamplingPriority_run _ _ _ Hs) in H.
    injection H as <- <-. eauto.
  - by rewrite (GetSamplingPriority_panic _ _ Hs) in H.
Qed.

Lemma register_known svcSig signature w :
  catalog (engine w) !! svcSig = Some signature ->
  register svcSig w = Some (signature, w).
Proof.
  intros Hc. unfold register, getEngine, mbind, M_bind. by rewrite Hc.
Qed.

Lemma register_fresh svcSig w :
  catalog (engine w) !! svcSig = None ->
  register svcSig w =
  Some (newSignature (catalog (engine w)) svcSig,
        mkWorld (mkPriorityEngine (sampler (engine w))
                   (<[svcSig := newSignature (catalog (engine w)) svcSig]>
                      (catalog (engine w))))
                (spans w)).
Proof.
  intros Hc. unfold register, getEngine, mbind, M_bind. by rewrite Hc.
Qed.

(** [register] always returns and never touches a span. *)
Lemma register_spans svcSig w :
  exists signature w',
    register svcSig w = Some (signature, w') /\ spans w' = spans w.
Proof.
  destruct (catalog (engine w) !! svcSig) as [signature|] eqn:Hc.
  - rewrite (register_known _ _ _ Hc). eauto.
  - rewrite (register_fresh _ _ Hc). eauto.
Qed.

Lemma CountSignature_run signature w :
  CountSignature signature w =
  Some (tt, mkWorld
              (mkPriorityEngine
                 (mkSampler
                    (mkBackend
                       (<[signature := (scoreOf w signature + 1)%N]>
                          (scores (Backend (sampler (engine w)))))
                       (sampledOf w))
                    (extraRate (sampler (engine w)))
                    (targetTPS (sampler (engine w)))
                    (rateThresholdTo1 (sampler (engine w))))
                 (catalog (engine w)))
              (spans w)).
Proof. reflexivity. Qed.

Lemma CountSample_run w :
  CountSample w =
  Some (tt, mkWorld
              (mkPriorityEngine
                 (mkSampler
                    (mkBackend (scores (Backend (sampler (engine w))))
                               (sampledOf w + 1)%N)
                    (extraRate (sampler (engine w)))
                    (targetTPS (sampler (engine w)))
                    (rateThresholdTo1 (sampler (engine w))))
                 (catalog (engine w)))
              (spans w)).
Proof. reflexivity. Qed.

(** Entering [Sample] on a non-empty trace: the length test fails and the
    priority is read off the root. *)
Ltac enter_Sample Hne Hprio :=
  unfold Sample;
  match goal with
  | |- context [length ?t] =>
      destruct t; [congruence | cbn [length Nat.eqb]]
  end;
  rewrite (bind_run _ _ _ _ _ Hprio); cbn beta iota.

(** C8. On an empty trace [Sample] returns false and touches nothing: the
    engine (catalog and counters) and every span are as before.  The root
    pointer and the environment do not matter; the root is not even
    dereferenced. *)
Theorem Sample_empty_trace (root : ptr) (env : string) (w : World) :
  Sample [] root env w = Some (false, w).
Proof. reflexivity. Qed.

(** The short circuit on a negative priority. *)
Lemma Sample_short_circuit trace root env w p ok :
  trace <> [] ->
  GetSamplingPriority root w = Some ((p, ok), w) ->
  p < 0 ->
  Sample trace root env w = Some (false, w).
Proof.
  intros Hne Hprio Hneg.
  enter_Sample Hne Hprio.
  assert ((p <? 0) = true) as -> by lia.
  assert ((0 <? p) = false) as -> by lia.
  reflexivity.
Qed.

(** C6. On a non-empty trace whose root carries a strictly negative
    priority, [Sample] returns false and leaves the world as it was: no
    signature is registered (the catalog is the same, so is its size) and
    no score or sampled counter changes. *)
Theorem Sample_negative_priority
    (trace : Trace) (root : ptr) (env : string) (w : World)
    (p : SamplingPriority) (ok : bool) :
  trace <> [] ->
  GetSamplingPriority root w = Some ((p, ok), w) ->
  p < 0 ->
  exists w',
    Sample trace root env w = Some (false, w') /\
    catalog (engine w') = catalog (engine w) /\
    size (catalog (engine w')) = size (catalog (engine w)) /\
    (forall signature, scoreOf w' signature = scoreOf w signature) /\
    sampledOf w' = sampledOf w /\
    w' = w.
Proof.
  intros Hne Hprio Hneg. exists w.
  by rewrite (Sample_short_circuit _ _ _ _ _ _ Hne Hprio Hneg).
Qed.

(** C7. On a non-empty trace whose root carries a priority strictly above
    1, [Sample] returns true and leaves the world as it was: no signature
    is registered, nothing is counted and the root is not annotated. *)
Theorem Sample_priority_above_one
    (trace : Trace) (root : ptr) (env : string) (w : World)
    (p : SamplingPriority) (ok : bool) :
  trace <> [] ->
  GetSamplingPriority root w = Some ((p, ok), w) ->
  1 < p ->
  exists w',
    Sample trace root env w = Some (true, w') /\
    catalog (engine w') = catalog (engine w) /\
    (forall signature, scoreOf w' signature = scoreOf w signature) /\
    sampledOf w' = sampledOf w /\
    spans w' = spans w /\
    w' = w.
Proof.
  intros Hne Hprio Hbig. exists w. split; [| done].
  enter_Sample Hne Hprio.
  assert ((p <? 0) = false) as -> by lia.
  assert ((1 <? p) = true) as -> by lia.
  assert ((0 <? p) = true) as -> by lia.
  reflexivity.
Qed.

(** C2. On a non-empty trace whose root has no priority metric, the lookup
    yields [PriorityNone] and [Sample] does what it does for an explicit
    negative priority: it returns false and leaves the world as it was; and
    so it does once the same root is given any explicit negative
    priority. *)
Theorem Sample_missing_priority
    (trace : Trace) (root : ptr) (env : string) (w : World) (sp : Span) :
  trace <> [] ->
  spans w !! root = Some sp ->
  Metrics sp !! KeySamplingPriority = None ->
  GetSamplingPriority root w = Some ((PriorityNone, false), w) /\
  Sample trace root env w = Some (false, w) /\
  forall val w',
    toPriority val < 0 ->
    setMetric root KeySamplingPriority val w = Some (tt, w') ->
    Sample trace root env w' = Some (false, w').
Proof.
  intros Hne Hroot Hmiss.
  assert (GetSamplingPriority root w = Some ((PriorityNone, false), w)) as Hprio.
  { rewrite (GetSamplingPriority_run _ _ _ Hroot). unfold priorityOf.
    by rewrite Hmiss. }
  split; [exact Hprio |]. split.
  - by apply (Sample_short_circuit _ _ _ _ _ _ Hne Hprio).
  - intros val w' Hval Hset.
    rewrite (setMetric_run _ _ _ _ _ Hroot) in Hset. injection Hset as <-.
    eapply (Sample_short_circuit _ _ _ _ (toPriority val) true Hne); [| done].
    erewrite GetSamplingPriority_run; [| apply lookup_insert_eq].
    unfold priorityOf. simpl. by rewrite lookup_insert_eq.
Qed.


Lemma absent_false sp k : absent sp k = false <-> is_Some (Metrics sp !! k).
Proof.
  unfold absent. destruct (Metrics sp !! k); split; try congruence; eauto.
  by intros [? ?].
Qed.

Lemma getMetric_run s k sp w :
  spans w !! s = Some sp ->
  exists val, getMetric s k w = Some ((val, negb (absent sp k)), w).
Proof.
  intros Hs. unfold absent. destruct (Metrics sp !! k) as [val|] eqn:Hk.
  - exists val. by apply getMetric_found with sp.
  - exists 0%float. by apply getMetric_missing with sp.
Qed.

(** What one call of [applyRate] does when the root is in the store. *)
Lemma applyRate_run sampled root signature sp w :
  spans w !! root = Some sp ->
  applyRate sampled root signature w =
  Some (tt,
        if unrated sp then
          let rate := GetSignatureSampleRate (sampler (engine w)) signature in
          mkWorld (engine w)
            (<[root := withLegacyRate sp
                         (if PrimFloat.ltb prioritySamplingRateThresholdTo1 rate
                          then 1%float else rate)]> (spans w))
        else w).
Proof.
  intros Hroot. unfold applyRate, unrated.
  rewrite (bind_run _ _ _ _ _ (deref_run _ _ _ Hroot)).
  destruct (ParentID sp =? 0)%N; [| reflexivity]. cbn [negb andb].
  destruct (getMetric_run root agentRateKey sp w Hroot) as [v1 ->%(bind_run _ _)].
  destruct (absent sp agentRateKey); [| reflexivity]. cbn [negb andb].
  destruct (getMetric_run root ruleRateKey sp w Hroot) as [v2 ->%(bind_run _ _)].
  destruct (absent sp ruleRateKey); [| reflexivity]. cbn [negb andb].
  destruct (getMetric_run root deprecatedRateKey sp w Hroot) as [v3 ->%(bind_run _ _)].
  destruct (absent sp deprecatedRateKey); [| reflexivity]. cbn [negb].
  unfold mbind at 1, M_bind at 1, getEngine.
  by rewrite (setMetric_run _ _ _ _ _ Hroot).
Qed.

Lemma applyRate_panic sampled root signature w :
  spans w !! root = None -> applyRate sampled root signature w = None.
Proof.
  intros Hroot. unfold applyRate.
  by rewrite (bind_panic _ _ _ (deref_panic _ _ Hroot)).
Qed.

(** A span that already carries one of the rate keys, or that has a parent,
    is left alone. *)
Lemma applyRate_rated sampled root signature sp w :
  spans w !! root = Some sp -> unrated sp = false ->
  applyRate sampled root signature w = Some (tt, w).
Proof. intros Hroot Hr. by rewrite (applyRate_run _ _ _ _ _ Hroot), Hr. Qed.

Lemma unrated_withLegacyRate sp val : unrated (withLegacyRate sp val) = false.
Proof.
  unfold unrated, absent, withLegacyRate. cbn [Metrics].
  rewrite lookup_insert_eq. by rewrite !andb_false_r.
Qed.

Lemma applyRates_rated calls root sp w :
  spans w !! root = Some sp -> unrated sp = false ->
  applyRates calls root w = Some (tt, w).
Proof.
  intros Hroot Hr. induction calls as [| [sampled signature] rest IH].
  - reflexivity.
  - cbn [applyRates].
    by rewrite (bind_run _ _ _ _ _ (applyRate_rated sampled _ signature _ _ Hroot Hr)).
Qed.

(** C3. Whenever [applyRate] writes the legacy key (the key was missing
    from the root before the call and is there after it), the value written
    is exactly 1 if the rate [GetSignatureSampleRate] computes for the
    signature exceeds the threshold 0.3, and that raw rate otherwise.  The
    call itself always returns on a valid root. *)
Theorem applyRate_threshold_to_1
    (sampled : bool) (root : ptr) (signature : Signature)
    (w : World) (sp : Span) :
  spans w !! root = Some sp ->
  Metrics sp !! deprecatedRateKey = None ->
  let rate := GetSignatureSampleRate (sampler (engine w)) signature in
  exists w',
    applyRate sampled root signature w = Some (tt, w') /\
    forall sp' val,
      spans w' !! root = Some sp' ->
      Metrics sp' !! deprecatedRateKey = Some val ->
      (PrimFloat.ltb prioritySamplingRateThresholdTo1 rate = true ->
       val = 1%float) /\
      (PrimFloat.ltb prioritySamplingRateThresholdTo1 rate = false ->
       val = rate).
Proof.
  intros Hroot Hold rate.
  rewrite (applyRate_run _ _ _ _ _ Hroot). eexists. split; [reflexivity |].
  intros sp' val Hroot' Hnew.
  destruct (unrated sp).
  - cbn [spans] in Hroot'. rewrite lookup_insert_eq in Hroot'.
    injection Hroot' as <-. cbn [withLegacyRate Metrics] in Hnew.
    rewrite lookup_insert_eq in Hnew. injection Hnew as <-.
    fold rate. by split; intros ->.
  - congruence.
Qed.

(** C4. On a root that carries [_dd.agent_psr] or [_dd.rule_psr], or the
    legacy key itself, any sequence of calls of [applyRate] leaves the
    world, hence the metrics of the root, as it was: the legacy key is
    neither written nor overwritten.  And for every root, calling
    [applyRate] twice is calling it once. *)
Theorem applyRate_keeps_existing_rate
    (calls : list (bool * Signature)) (root : ptr) (w : World) (sp : Span) :
  spans w !! root = Some sp ->
  is_Some (Metrics sp !! agentRateKey) \/
  is_Some (Metrics sp !! ruleRateKey) \/
  is_Some (Metrics sp !! deprecatedRateKey) ->
  applyRates calls root w = Some (tt, w) /\
  forall sampled1 signature1 sampled2 signature2 w0,
    (applyRate sampled1 root signature1 ≫=
       fun _ => applyRate sampled2 root signature2) w0 =
    applyRate sampled1 root signature1 w0.
Proof.
  intros Hroot Hkey. split.
  - apply applyRates_rated with sp; [done |].
    unfold unrated.
    destruct Hkey as [Hk | [Hk | Hk]]; apply absent_false in Hk; rewrite Hk;
      by rewrite ?andb_false_r.
  - intros sampled1 signature1 sampled2 signature2 w0.
    destruct (spans w0 !! root) as [sp0|] eqn:Hroot0.
    + rewrite (bind_run _ _ _ _ _ (applyRate_run sampled1 _ signature1 _ _ Hroot0)).
      rewrite (applyRate_run sampled1 _ signature1 _ _ Hroot0).
      destruct (unrated sp0) eqn:Hr.
      * eapply applyRate_rated; [apply lookup_insert_eq |].
        apply unrated_withLegacyRate.
      * by apply applyRate_rated with sp0.
    + rewrite (bind_panic _ _ _ (applyRate_panic sampled1 _ signature1 _ Hroot0)).
      by rewrite applyRate_panic.
Qed.

(** The decision and the footprint of [Sample] on a non-empty trace whose
    root is in the store: the decision is [0 < priority], and the spans are
    either all untouched or differ by the legacy key written on an unrated
    root. *)
Lemma Sample_outcome trace root env w sp p ok :
  trace <> [] ->
  spans w !! root = Some sp ->
  GetSamplingPriority root w = Some ((p, ok), w) ->
  exists w',
    Sample trace root env w = Some (0 <? p, w') /\
    (spans w' = spans w \/
     unrated sp = true /\
     exists val, spans w' = <[root := withLegacyRate sp val]> (spans w)).
Proof.
  intros Hne Hroot Hprio.
  enter_Sample Hne Hprio.
  destruct (p <? 0); [eauto |].
  destruct (1 <? p); [eauto |].
  rewrite (bind_run _ _ _ _ _ (deref_run _ _ _ Hroot)).
  destruct (register_spans (mkServiceSignature (Service sp) env) w)
    as (signature & w1 & Hreg & Hsp1).
  rewrite (bind_run _ _ _ _ _ Hreg).
  rewrite (bind_run _ _ _ _ _ (CountSignature_run signature w1)).
  destruct (0 <? p); [| cbn; eauto].
  erewrite bind_run;
    [| apply (applyRate_run _ _ _ sp); cbn [spans]; by rewrite Hsp1].
  erewrite bind_run; [| apply CountSample_run].
  eexists. split; [reflexivity |].
  destruct (unrated sp); cbn [spans]; rewrite Hsp1; eauto.
Qed.

Lemma unrated_parent sp : ParentID sp <> 0%N -> unrated sp = false.
Proof.
  intros Hp. unfold unrated.
  by destruct (N.eqb_spec (ParentID sp) 0).
Qed.

(** C5. A call of [Sample] that does not panic (the trace is empty or the
    root pointer is valid) returns, and the only thing it may change in the
    span store is the legacy key of the root: every other span is as
    before, and the root is either as before or differs by the value of
    [_sampling_priority_rate_v1] alone.  When the root has a parent,
    [applyRate] changes nothing at all and [Sample] leaves every span as it
    was. *)
Theorem Sample_writes_only_legacy_key
    (trace : Trace) (root : ptr) (env : string) (w : World) :
  trace = [] \/ is_Some (spans w !! root) ->
  exists b w',
    Sample trace root env w = Some (b, w') /\
    (forall q, q <> root -> spans w' !! q = spans w !! q) /\
    (spans w' !! root = spans w !! root \/
     exists sp sp' val,
       spans w !! root = Some sp /\ spans w' !! root = Some sp' /\
       Service sp' = Service sp /\ ParentID sp' = ParentID sp /\
       Metrics sp' = <[deprecatedRateKey := val]> (Metrics sp)) /\
    (forall sp, spans w !! root = Some sp -> ParentID sp <> 0%N ->
       spans w' = spans w /\
       forall sampled signature,
         applyRate sampled root signature w = Some (tt, w)).
Proof.
  intros Hok.
  assert (forall sp, spans w !! root = Some sp -> ParentID sp <> 0%N ->
          forall sampled signature,
            applyRate sampled root signature w = Some (tt, w)) as Hnoop.
  { intros sp Hroot Hparent sampled signature.
    apply applyRate_rated with sp; [done |]. by apply unrated_parent. }
  destruct trace as [| s rest].
  { exists false, w. split; [reflexivity |].
    split; [done |]. split; [by left |]. intros sp Hroot Hparent.
    split; [done |]. by apply Hnoop with sp. }
  destruct Hok as [? | [sp Hroot]]; [done |].
  destruct (priorityOf sp) as [p ok] eqn:Hp.
  destruct (Sample_outcome (s :: rest) root env w sp p ok)
    as (w' & Hrun & Hspans); [done | done | |].
  { by rewrite (GetSamplingPriority_run _ _ _ Hroot), Hp. }
  exists (0 <? p), w'. split; [exact Hrun |].
  destruct Hspans as [Hsame | (Hunrated & val & Hnew)].
  - rewrite Hsame. split; [done |]. split; [by left |].
    intros sp0 Hroot0 Hparent. split; [done |]. by apply Hnoop with sp0.
  - rewrite Hnew. split; [| split].
    + intros q Hq. by rewrite lookup_insert_ne.
    + right. exists sp, (withLegacyRate sp val), val.
      rewrite lookup_insert_eq. repeat split; done.
    + intros sp0 Hroot0 Hparent.
      assert (sp0 = sp) as -> by congruence.
      rewrite (unrated_parent _ Hparent) in Hunrated. discriminate.
Qed.


End EngineFacts.

(** C10. The boolean [Sample] returns depends only on whether the trace is
    empty and on the priority read off the root.  Two calls that agree on
    these return the same boolean, whatever their worlds (catalog, scores,
    counters, sampler configuration), environments and packages (rate
    computation, signature allocation) are. *)
Theorem Sample_decision_by_priority
    (pkg pkg' : Package)
    (trace1 trace2 : Trace) (root1 root2 : ptr) (env1 env2 : string)
    (w1 w2 : World) (p : SamplingPriority) (ok1 ok2 : bool) :
  (trace1 = [] <-> trace2 = []) ->
  (trace1 <> [] ->
   @GetSamplingPriority pkg root1 w1 = Some ((p, ok1), w1) /\
   @GetSamplingPriority pkg' root2 w2 = Some ((p, ok2), w2)) ->
  exists b w1' w2',
    @Sample pkg trace1 root1 env1 w1 = Some (b, w1') /\
    @Sample pkg' trace2 root2 env2 w2 = Some (b, w2').
Proof.
  intros Hempty Hprio.
  destruct trace1 as [| s1 rest1].
  - assert (trace2 = []) as -> by by apply Hempty.
    exists false, w1, w2. split; reflexivity.
  - destruct Hprio as [Hp1 Hp2]; [done |].
    assert (trace2 <> []) as Hne2 by (intros Hnil; by apply Hempty in Hnil).
    destruct (GetSamplingPriority_inv _ _ _ _ Hp1) as (_ & sp1 & Hroot1 & _).
    destruct (@GetSamplingPriority_inv pkg' _ _ _ _ Hp2) as (_ & sp2 & Hroot2 & _).
    destruct (@Sample_outcome pkg (s1 :: rest1) root1 env1 w1 sp1 p ok1)
      as (w1' & Hrun1 & _); [done | exact Hroot1 | exact Hp1 |].
    destruct (@Sample_outcome pkg' trace2 root2 env2 w2 sp2 p ok2 Hne2 Hroot2 Hp2)
      as (w2' & Hrun2 & _).
    eauto.
Qed.

(** * Properties of the life cycle *)

Section LifecycleFacts.

Import Lifecycle.

Variable joinCore : bool.

Lemma consistent_init : consistent init.
Proof. by repeat split. Qed.

(** Case analysis over the action fired and the program point it needs. *)
Ltac fired Hfire :=
  match type of Hfire with
  | context [match ?pc with _ => _ end] => destruct pc; try discriminate
  end;
  repeat match type of Hfire with
    | context [if ?b then _ else _] => destruct b eqn:?; try discriminate
    end;
  injection Hfire as <-.

Lemma fire_consistent a l l' :
  fire joinCore a l = Some l' -> consistent l -> consistent l'.
Proof.
  destruct l as [r c y t sig ex n pub].
  destruct a; cbn [fire]; intros Hfire.
  all: fired Hfire.
  all: unfold consistent, pending; cbn.
  all: repeat match goal with
       | x : RunPc |- _ => destruct x
       | x : CorePc |- _ => destruct x
       | x : SyncPc |- _ => destruct x
       end; cbn.
  all: intros [(Hwg & Hc & Hy) Hstop]; try discriminate; try done.
  all: split; [repeat split; try done; lia |].
  all: repeat match goal with x : StopPc |- _ => destruct x end;
       cbn in *; intuition congruence.
Qed.

Lemma schedule_consistent acts l l' :
  schedule joinCore acts l = Some l' -> consistent l -> consistent l'.
Proof.
  revert l. induction acts as [| a rest IH]; intros l; cbn [schedule].
  - by intros [= <-].
  - destruct (fire joinCore a l) as [l1|] eqn:Hfire; [| discriminate].
    intros Hrest Hl. apply (IH l1 Hrest). by apply fire_consistent with a l.
Qed.

Lemma reachable_consistent l : reachable joinCore l -> consistent l.
Proof.
  intros [acts Hacts].
  apply (schedule_consistent acts init l Hacts consistent_init).
Qed.



End LifecycleFacts.


(** After [Stop] has returned the rate-sync loop may even publish once more
    before it sees the closed channel, and both loops do wind up, after
    which [Run] returns. *)
Example sync_loop_publishes_after_Stop :
  Lifecycle.schedule false
    [Lifecycle.RunWgAdd; Lifecycle.RunGoCore; Lifecycle.RunGoSync;
     Lifecycle.SyncMakeTicker;
     Lifecycle.StopCall; Lifecycle.StopSignalCore;
     Lifecycle.StopSamplerReturns; Lifecycle.StopCloseExit;
     Lifecycle.StopReturn;
     Lifecycle.SyncTick; Lifecycle.SyncRecvExit; Lifecycle.SyncWgDone;
     Lifecycle.SyncReturn;
     Lifecycle.CoreRunReturns; Lifecycle.CoreWgDone; Lifecycle.CoreExit;
     Lifecycle.RunWgWait; Lifecycle.RunReturn]
    Lifecycle.init =
  Some (Lifecycle.mkLife Lifecycle.RunReturned Lifecycle.CoreExited
          Lifecycle.SyncExited Lifecycle.StopReturned true true 0 1).
Proof. reflexivity. Qed.

(** [Run] cannot get past [wg.Wait()] while the rate-sync loop is still
    running. *)
Example Run_waits_for_sync_loop :
  Lifecycle.schedule false
    [Lifecycle.RunWgAdd; Lifecycle.RunGoCore; Lifecycle.RunGoSync;
     Lifecycle.SyncMakeTicker;
     Lifecycle.StopCall; Lifecycle.StopSignalCore;
     Lifecycle.StopSamplerReturns; Lifecycle.StopCloseExit;
     Lifecycle.StopReturn;
     Lifecycle.CoreRunReturns; Lifecycle.CoreWgDone; Lifecycle.RunWgWait]
    Lifecycle.init = None.
Proof. reflexivity. Qed.

(** [Run] can return before the goroutine of the rate-sync loop has: the
    loop has called [wg.Done()], its return and the deferred [t.Stop()] are
    still to come; and before [Stop] has returned, which has closed the
    channel and no more. *)
Example Run_returns_before_the_goroutines_end :
  Lifecycle.schedule false
    [Lifecycle.RunWgAdd; Lifecycle.RunGoCore; Lifecycle.RunGoSync;
     Lifecycle.SyncMakeTicker;
     Lifecycle.StopCall; Lifecycle.StopSignalCore;
     Lifecycle.StopSamplerReturns; Lifecycle.StopCloseExit;
     Lifecycle.SyncRecvExit; Lifecycle.SyncWgDone;
     Lifecycle.CoreRunReturns; Lifecycle.CoreWgDone;
     Lifecycle.RunWgWait; Lifecycle.RunReturn]
    Lifecycle.init =
  Some (Lifecycle.mkLife Lifecycle.RunReturned Lifecycle.CoreAfterDone
          Lifecycle.SyncAfterDone Lifecycle.StopAfterClose true true 0 0).
Proof. reflexivity. Qed.


(** * The theorems at work on the demo package *)



Lemma Sample_missing_priority_witness :
  Metrics (Demo.spanWith 0 []) !! (@KeySamplingPriority Demo.package) = None /\
  @Sample Demo.package Demo.traceOf2 1%N "prod" Demo.wNoPriority
  = Some (false, Demo.wNoPriority) /\
  @Sample Demo.package Demo.traceOf2 1%N "prod" Demo.wUserDrop
  = Some (false, Demo.wUserDrop).
Proof.
  assert (Metrics (Demo.spanWith 0 []) !! (@KeySamplingPriority Demo.package)
          = None) as Hmiss by reflexivity.
  split; [exact Hmiss |].
  destruct (@Sample_missing_priority Demo.package Demo.traceOf2 1%N "prod"
              Demo.wNoPriority (Demo.spanWith 0 []))
    as (_ & Hrun & Hexplicit).
  - discriminate.
  - reflexivity.
  - exact Hmiss.
  - split; [exact Hrun |].
    apply (Hexplicit (-1)%float).
    + reflexivity.
    + vm_compute. reflexivity.
Defined.

(** The raw rate of signature 0 is 0.5 in [Demo.wHalf]: above the
    threshold, so 1 is written. *)
Lemma applyRate_threshold_to_1_witness :
  @GetSignatureSampleRate Demo.package (sampler (engine Demo.wHalf)) 0%N
  = 0.5%float /\
  PrimFloat.ltb prioritySamplingRateThresholdTo1 0.5%float = true /\
  exists w' sp',
    @applyRate Demo.package true 1%N 0%N Demo.wHalf = Some (tt, w') /\
    spans w' !! 1%N = Some sp' /\
    Metrics sp' !! deprecatedRateKey = Some 1%float.
Proof.
  split; [reflexivity |]. split; [reflexivity |].
  destruct (@applyRate_threshold_to_1 Demo.package true 1%N 0%N Demo.wHalf
              (Demo.spanWith 0 Demo.keep))
    as (w' & Hrun & Hval).
  - reflexivity.
  - reflexivity.
  - assert (@applyRate Demo.package true 1%N 0%N Demo.wHalf
            = Some (tt, mkWorld (engine Demo.wHalf)
                          (<[1%N := withLegacyRate (Demo.spanWith 0 Demo.keep)
                                      1%float]> (spans Demo.wHalf))))
      as Hrun' by (vm_compute; reflexivity).
    rewrite Hrun' in Hrun. injection Hrun as <-.
    do 2 eexists. split; [exact Hrun' |]. split; reflexivity.
Defined.

(** The raw rate of signature 0 is 0.1 in [Demo.wTenth]: below the
    threshold, so it is written as it is. *)
Example applyRate_below_threshold :
  exists w' sp',
    @applyRate Demo.package true 1%N 0%N Demo.wTenth = Some (tt, w') /\
    spans w' !! 1%N = Some sp' /\
    Metrics sp' !! deprecatedRateKey = Some 0.1%float.
Proof. do 2 eexists. vm_compute. repeat split; reflexivity. Qed.

Lemma applyRate_keeps_existing_rate_witness :
  is_Some (Metrics (Demo.spanWith 0 Demo.agentRated) !! agentRateKey) /\
  @applyRates Demo.package [(true, 0%N); (true, 5%N); (false, 0%N)] 1%N
    Demo.wAgentRated = Some (tt, Demo.wAgentRated).
Proof.
  assert (is_Some (Metrics (Demo.spanWith 0 Demo.agentRated) !! agentRateKey))
    as Hkey by (eexists; reflexivity).
  split; [exact Hkey |].
  apply (@applyRate_keeps_existing_rate Demo.package
           [(true, 0%N); (true, 5%N); (false, 0%N)] 1%N Demo.wAgentRated
           (Demo.spanWith 0 Demo.agentRated)).
  - reflexivity.
  - left. exact Hkey.
Defined.

Lemma Sample_writes_only_legacy_key_witness :
  is_Some (spans Demo.wKeep !! 1%N) /\
  exists b w',
    @Sample Demo.package Demo.traceOf2 1%N "prod" Demo.wKeep = Some (b, w') /\
    spans w' !! 2%N = spans Demo.wKeep !! 2%N.
Proof.
  assert (is_Some (spans Demo.wKeep !! 1%N)) as Hroot by (eexists; reflexivity).
  split; [exact Hroot |].
  destruct (@Sample_writes_only_legacy_key Demo.package Demo.traceOf2 1%N
              "prod" Demo.wKeep (or_intror Hroot))
    as (b & w' & Hrun & Hothers & _).
  exists b, w'. split; [exact Hrun |]. apply Hothers. discriminate.
Defined.

Lemma Sample_negative_priority_witness :
  @GetSamplingPriority Demo.package 1%N Demo.wUserDrop
  = Some ((-1, true), Demo.wUserDrop) /\
  exists w',
    @Sample Demo.package Demo.traceOf2 1%N "prod" Demo.wUserDrop
    = Some (false, w') /\ w' = Demo.wUserDrop.
Proof.
  assert (@GetSamplingPriority Demo.package 1%N Demo.wUserDrop
          = Some ((-1, true), Demo.wUserDrop)) as Hprio
    by (vm_compute; reflexivity).
  split; [exact Hprio |].
  destruct (@Sample_negative_priority Demo.package Demo.traceOf2 1%N "prod"
              Demo.wUserDrop (-1) true)
    as (w' & Hrun & _ & _ & _ & _ & Hsame).
  - discriminate.
  - exact Hprio.
  - reflexivity.
  - exists w'. split; [exact Hrun | exact Hsame].
Defined.

Lemma Sample_priority_above_one_witness :
  @GetSamplingPriority Demo.package 1%N Demo.wUserKeep
  = Some ((2, true), Demo.wUserKeep) /\
  exists w',
    @Sample Demo.package Demo.traceOf2 1%N "prod" Demo.wUserKeep
    = Some (true, w') /\ w' = Demo.wUserKeep.
Proof.
  assert (@GetSamplingPriority Demo.package 1%N Demo.wUserKeep
          = Some ((2, true), Demo.wUserKeep)) as Hprio
    by (vm_compute; reflexivity).
  split; [exact Hprio |].
  destruct (@Sample_priority_above_one Demo.package Demo.traceOf2 1%N "prod"
              Demo.wUserKeep 2 true)
    as (w' & Hrun & _ & _ & _ & _ & Hsame).
  - discriminate.
  - exact Hprio.
  - reflexivity.
  - exists w'. split; [exact Hrun | exact Hsame].
Defined.

(** Two calls on roots of priority 1: a quiet engine with the demo package
    and a busy one with the other package, another trace length and
    another environment.  Both keep the trace. *)
Lemma Sample_decision_by_priority_witness :
  exists b w1' w2',
    @Sample Demo.package Demo.traceOf2 1%N "prod" Demo.wKeep = Some (b, w1') /\
    @Sample Demo.package' [1%N] 1%N "staging" Demo.wTenth = Some (b, w2').
Proof.
  apply (Sample_decision_by_priority Demo.package Demo.package'
           Demo.traceOf2 [1%N] 1%N 1%N "prod" "staging"
           Demo.wKeep Demo.wTenth 1 true true).
  - split; discriminate.
  - intros _. split; vm_compute; reflexivity.
Defined.

(** A nil root is harmless on an empty trace, where it is never
    dereferenced, and a panic on a non-empty one. *)
Example Sample_nil_root :
  @Sample Demo.package [] 7%N "prod" Demo.wKeep = Some (false, Demo.wKeep) /\
  @Sample Demo.package Demo.traceOf2 7%N "prod" Demo.wKeep = None.
Proof. split; reflexivity. Qed.

(** An automatic drop (priority 0) is counted but neither annotated nor
    counted as sampled. *)
Example Sample_auto_drop :
  exists w',
    @Sample Demo.package Demo.traceOf2 1%N "prod" Demo.wDrop
    = Some (false, w') /\
    scoreOf w' 0%N = 1%N /\ sampledOf w' = 0%N /\
    spans w' = spans Demo.wDrop.
Proof. eexists. vm_compute. repeat split; reflexivity. Qed.

(** * Kernel header discovery

    A shallow embedding of the [kernel] package's header lookup:
    [FindHeaderDirs] and the functions it calls.  The pure part,
    [parseHeaderVersion], works on the lines a [bufio.Scanner] yields.  The
    rest talks to the operating system; every such call is a [Call], a
    function is the tree of calls it makes ([Prog]), and the operating
    system is any [Handler] answering them. *)
Module Kernel.

(** Modelled from the spec: [Version] is declared in another file of the
    package; the code builds it from a 32-bit unsigned number and compares
    it with [==]. *)
Abbreviation Version := N.

(** A Go [error], as far as this code looks at it: whether [os.IsNotExist]
    holds of it, and its text. *)
Record error := mkError {
  IsNotExist : bool;
  Error : string
}.

(** [fmt.Errorf]: a new error, with the given text, that [os.IsNotExist]
    does not recognise (it does not look through [%w]). *)
Definition Errorf (text : string) : error := mkError false text.

(** [os.ErrNotExist]. *)
Definition ErrNotExist : error := mkError true "file does not exist".

(** A value or an error, for functions returning [(T, error)]. *)
Inductive result (A : Type) : Type :=
  | Ok (a : A)
  | Err (err : error).
Arguments Ok {A} a.
Arguments Err {A} err.

Definition sysfsHeadersPath : string := "/sys/kernel/kheaders.tar.xz".
(** [kernelModulesPath] is the format "/lib/modules/%s/build"; [Sprintf]
    puts the kernel release in the place of the verb. *)
Definition kernelModulesPath (release : string) : string :=
  "/lib/modules/" +:+ release +:+ "/build".
Definition kernelSourcePath (release : string) : string :=
  "/lib/modules/" +:+ release +:+ "/source".

(** ** Parsing version.h *)

(** What a [bufio.Scanner] makes of a reader: the lines it yields, in
    order, and the error [scanner.Err()] reports once [Scan] has returned
    false ([None] at the end of the input). *)
Record Reader := mkReader {
  scanned : list string;
  scanErr : option error
}.

Fixpoint stripPrefix (prefix s : string) : option string :=
  match prefix, s with
  | EmptyString, _ => Some s
  | String a prefix', String b s' =>
      if Ascii.eqb a b then stripPrefix prefix' s' else None
  | String _ _, EmptyString => None
  end.

(** The class [[\t ]]. *)
Definition isBlank (a : Ascii.ascii) : bool :=
  Ascii.eqb a "009"%char || Ascii.eqb a " "%char.

(** The class [\d]: the ASCII digits. *)
Definition isDigit (a : Ascii.ascii) : bool :=
  (48 <=? Ascii.nat_of_ascii a)%nat && (Ascii.nat_of_ascii a <=? 57)%nat.

Fixpoint dropBlanks (s : string) : string :=
  match s with
  | String a s' => if isBlank a then dropBlanks s' else s
  | EmptyString => s
  end.

(** [[\t ]+] at the head of [s]: at least one blank, then as many as there
    are. *)
Definition blanks1 (s : string) : option string :=
  match s with
  | String a s' => if isBlank a then Some (dropBlanks s') else None
  | EmptyString => None
  end.

Fixpoint allDigits (s : string) : bool :=
  match s with
  | String a s' => isDigit a && allDigits s'
  | EmptyString => true
  end.

(** [re.FindSubmatch] for the expression
    [^#define[\t ]+LINUX_VERSION_CODE[\t ]+(\d+)$]: the text of the group
    when the whole line matches. *)
Definition findVersionCode (line : string) : option string :=
  s1 ← stripPrefix "#define" line;
  s2 ← blanks1 s1;
  s3 ← stripPrefix "LINUX_VERSION_CODE" s2;
  digits ← blanks1 s3;
  match digits with
  | EmptyString => None
  | String _ _ => if allDigits digits then Some digits else None
  end.

(** [strconv.ParseUint(s, 10, 32)]: the value when [s] is a non-empty run
    of decimal digits whose value fits 32 bits; an error ([None])
    otherwise. *)
Definition ParseUint (s : string) : option N :=
  match s with
  | EmptyString => None
  | String _ _ =>
      d ← NilEmpty.uint_of_string s;
      let code := N.of_uint d in
      if (code <? 2 ^ 32)%N then Some code else None
  end.

(** The loop of [parseHeaderVersion]: the first line that matches and whose
    number parses wins; a line whose number does not parse is skipped. *)
Fixpoint scanLines (lines : list string) : option Version :=
  match lines with
  | [] => None
  | line :: rest =>
      match findVersionCode line with
      | Some digits =>
          match ParseUint digits with
          | Some code => Some code
          | None => scanLines rest
          end
      | None => scanLines rest
      end
  end.

Definition parseHeaderVersion (r : Reader) : result Version :=
  match scanLines (scanned r) with
  | Some code => Ok code
  | None =>
      match scanErr r with
      | Some err => Err err
      | None => Err (Errorf "no kernel version found")
      end
  end.

(** ** Vocabulary for the properties of the parser *)

(** A run of blanks. *)
Fixpoint allBlank (s : string) : bool :=
  match s with
  | String a s' => isBlank a && allBlank s'
  | EmptyString => true
  end.

(** Where a string stops being blank: at its end or at a character that is
    not a blank. *)
Definition blankFree (s : string) : bool :=
  match s with
  | String a _ => negb (isBlank a)
  | EmptyString => true
  end.

(** The decimal text of a number, without leading zeros. *)
Definition decimal (n : N) : string := NilEmpty.string_of_uint (N.to_uint n).

(** The version a single line yields, if any. *)
Definition lineVersion (line : string) : option Version :=
  digits ← findVersionCode line; ParseUint digits.

(** ** Calls to the operating system and to other packages *)

(** The two fields of [host.GetStatusInformation()] the code reads. *)
Record HostInfo := mkHostInfo {
  KernelVersion : string;
  Platform : string
}.

(** What the code asks of an [os.FileInfo]. *)
Record FileInfo := mkFileInfo {
  IsDir : bool
}.

Inductive Call : Type :=
  | HostVersion                      (* HostVersion(), of this package *)
  | GetStatusInformation             (* host.GetStatusInformation() *)
  | TempDir                          (* os.TempDir() *)
  | Stat (name : string)             (* os.Stat(name) *)
  | Open (name : string)             (* os.Open(name); the file is then scanned *)
  | Close (name : string)            (* f.Close() *)
  | Command (name : string) (args : list string)
                                     (* exec.Command(name, args...).Run(),
                                        with Stderr captured in a buffer *)
  | Unarchive (source destination : string).
                                     (* archiver.NewTarXz().Unarchive(...) *)

(** What each call gives back.  A command gives the error of [cmd.Run()]
    and what it wrote to its standard error. *)
Definition Resp (c : Call) : Type :=
  match c with
  | HostVersion => result Version
  | GetStatusInformation => HostInfo
  | TempDir => string
  | Stat _ => result FileInfo
  | Open _ => result Reader
  | Close _ => unit
  | Command _ _ => (option error * string)%type
  | Unarchive _ _ => option error
  end.

(** A function that makes calls: it returns, or makes a call and goes on
    with the answer. *)
Inductive Prog (A : Type) : Type :=
  | Ret (a : A)
  | Do (c : Call) (k : Resp c -> Prog A).
Arguments Ret {A} a.
Arguments Do {A} c k.

Fixpoint bind {A B : Type} (m : Prog A) (f : A -> Prog B) : Prog B :=
  match m with
  | Ret a => f a
  | Do c k => Do c (fun x => bind (k x) f)
  end.

#[global] Instance Prog_ret : MRet Prog := fun A a => Ret a.
#[global] Instance Prog_bind : MBind Prog := fun A B f m => bind m f.

Definition call (c : Call) : Prog (Resp c) := Do c Ret.

(** One call with its answer. *)
Record Event := mkEvent {
  called : Call;
  answered : Resp called
}.

(** An operating system: it answers every call, from a state of its own
    that the call may change. *)
Definition Handler (St : Type) : Type := forall c : Call, St -> Resp c * St.

(** Running a function against an operating system: its result, the state
    left behind and the calls made, in order. *)
Fixpoint run {A St : Type} (os : Handler St) (m : Prog A) (st : St)
  : A * St * list Event :=
  match m with
  | Ret a => (a, st, [])
  | Do c k =>
      let '(x, st1) := os c st in
      let '(a, st2, log) := run os (k x) st1 in
      (a, st2, mkEvent c x :: log)
  end.

(** The library functions the code composes paths and texts with. *)
Class Libs := {
  (** [filepath.Join] of two elements. *)
  Join : string -> string -> string;
  (** The text [%s] prints for a [Version]. *)
  VersionString : Version -> string
}.

Section Headers.

Context {libs : Libs}.

Definition getHeaderVersion (path : string) : Prog (result Version) :=
  let vh := Join path "include/generated/uapi/linux/version.h" in
  f ← call (Open vh);
  match f with
  | Err err => mret (Err err)
  | Ok f =>
      (* defer f.Close() *)
      let r := parseHeaderVersion f in
      _ ← call (Close vh);
      mret r
  end.

(** The loop of [getHeaderDirs] over the directories still to try; [dirs]
    is the whole list, which is what a match returns. *)
Fixpoint tryDirs (v : Version) (dirs todo : list string)
  : Prog (result (list string)) :=
  match todo with
  | [] => mret (Err ErrNotExist)
  | d :: rest =>
      r ← getHeaderVersion d;
      match r with
      | Err err =>
          (* if version.h is not found in this directory, keep going *)
          if IsNotExist err then tryDirs v dirs rest
          else mret (Err (Errorf ("error validating headers version: "
                                  +:+ Error err)))
      | Ok hv =>
          if (hv =? v)%N then mret (Ok dirs) else tryDirs v dirs rest
      end
  end.

(** The directories [getHeaderDirs] tries. *)
Definition candidateDirs (hi : HostInfo) : list string :=
  let dirs := [kernelModulesPath] in
  let dirs := if String.eqb (Platform hi) "debian"
              then dirs ++ [kernelSourcePath] else dirs in
  (* KernelVersion == uname -r *)
  (fun format => format (KernelVersion hi)) <$> dirs.

Definition getHeaderDirs (v : Version) : Prog (result (list string)) :=
  hi ← call GetStatusInformation;
  if String.eqb (KernelVersion hi) "" then
    mret (Err (Errorf "unable to get host metadata"))
  else
    let dirs := candidateDirs hi in
    tryDirs v dirs dirs.

Definition sysfsHeadersExist : Prog bool :=
  r ← call (Stat sysfsHeadersPath);
  (* if any kind of error (including not exists), treat as not being there *)
  mret (match r with Ok _ => true | Err _ => false end).

(** [err != nil]. *)
Definition failed (err : option error) : bool :=
  match err with
  | Some _ => true
  | None => false
  end.

Definition loadKHeadersModule : Prog (option error) :=
  '(err, stderr) ← call (Command "modprobe" ["kheaders"]);
  if failed err || (0 <? String.length stderr)%nat
  then mret (Some (Errorf ("unable to load kheaders module: " +:+ stderr)))
  else mret None.

Definition unloadKHeadersModule : Prog (option error) :=
  '(err, stderr) ← call (Command "rmmod" ["kheaders"]);
  if failed err || (0 <? String.length stderr)%nat
  then mret (Some (Errorf ("unable to unload kheaders module: " +:+ stderr)))
  else mret None.

(** The tail of [getSysfsHeaderDirs]: unpack the archive into [tmpPath]. *)
Definition extractHeaders (tmpPath : string) : Prog (result (list string)) :=
  err ← call (Unarchive sysfsHeadersPath tmpPath);
  match err with
  | Some err =>
      mret (Err (Errorf ("unable to extract kernel headers: " +:+ Error err)))
  | None => mret (Ok [tmpPath])
  end.

Definition getSysfsHeaderDirs (v : Version) : Prog (result (list string)) :=
  tmp ← call TempDir;
  let tmpPath := Join tmp ("linux-headers-" +:+ VersionString v) in
  fi ← call (Stat tmpPath);
  if match fi with Ok fi => IsDir fi | Err _ => false end then
    r ← getHeaderVersion tmpPath;
    match r with
    | Err err =>
        mret (Err (Errorf ("unable to verify headers version: " +:+ Error err)))
    | Ok hv =>
        if negb (hv =? v)%N then
          mret (Err (Errorf ("header version " +:+ VersionString v
                             +:+ " does not match expected host version "
                             +:+ VersionString hv)))
        else mret (Ok [tmpPath])
    end
  else
    present ← sysfsHeadersExist;
    if negb present then
      err ← loadKHeadersModule;
      match err with
      | Some err => mret (Err err)
      | None =>
          (* defer unloadKHeadersModule() *)
          present ← sysfsHeadersExist;
          r ← (if negb present
               then mret (Err (Errorf "unable to find sysfs kernel headers"))
               else extractHeaders tmpPath);
          _ ← unloadKHeadersModule;
          mret r
      end
    else extractHeaders tmpPath.

Definition FindHeaderDirs : Prog (result (list string)) :=
  hv ← call HostVersion;
  match hv with
  | Err err =>
      mret (Err (Errorf ("unable to determine host kernel version: "
                         +:+ Error err)))
  | Ok hv =>
      r ← getHeaderDirs hv;
      match r with
      | Ok dir => mret (Ok dir)
      | Err err =>
          if IsNotExist err then
            (* as last resort, look for sysfs headers *)
            r' ← getSysfsHeaderDirs hv;
            match r' with
            | Ok dir => mret (Ok dir)
            | Err _ => mret (Err err)
            end
          else mret (Err err)
      end
  end.

(** ** Vocabulary for the properties of the lookup *)

(** The answer of [getHeaderVersion], given that of [os.Open]. *)
Definition headerVersionOf (f : result Reader) : result Version :=
  match f with
  | Ok f => parseHeaderVersion f
  | Err err => Err err
  end.

(** Does [tryDirs] go on to the next directory after this answer? *)
Definition keepsLooking (v : Version) (r : result Version) : bool :=
  match r with
  | Ok hv => negb (hv =? v)%N
  | Err err => IsNotExist err
  end.

Definition versionFile (dir : string) : string :=
  Join dir "include/generated/uapi/linux/version.h".

Definition isCommand (c : Call) : bool :=
  match c with Command _ _ => true | _ => false end.
Definition isUnarchive (c : Call) : bool :=
  match c with Unarchive _ _ => true | _ => false end.
Definition isOpen (c : Call) : bool :=
  match c with Open _ => true | _ => false end.
Definition isTempDir (c : Call) : bool :=
  match c with TempDir => true | _ => false end.

(** A [modprobe] that went through: no error and nothing on its standard
    error. *)
Definition loadedModule (ev : Event) : bool :=
  match ev with
  | mkEvent c x =>
      match c return Resp c -> bool with
      | Command name args => fun '(err, stderr) =>
          String.eqb name "modprobe" && negb (failed err)
          && (String.length stderr =? 0)%nat
      | _ => fun _ => false
      end x
  end.

(** An [rmmod] call. *)
Definition unloadsModule (ev : Event) : bool :=
  match called ev with
  | Command name args => String.eqb name "rmmod"
  | _ => false
  end.

End Headers.

End Kernel.

(** ** A machine, to run the header lookup on examples *)
Module KernelDemo.

Import Kernel.

#[export] Instance libs : Libs := {|
  Join := fun dir name => dir +:+ "/" +:+ name;
  VersionString := decimal
|}.

(** A file system with version.h files, directories, and possibly the
    kheaders archive under /sys; a module that loads or not; an archive
    that unpacks or not. *)
Record Machine := mkMachine {
  hostVersion : result Version;
  info : HostInfo;
  files : gmap string Reader;
  dirs : gset string;
  sysfsPresent : bool;
  moduleLoads : bool;
  archiveUnpacks : bool
}.

Definition machine : Handler Machine := fun c =>
  match c as c return Machine -> Resp c * Machine with
  | HostVersion => fun m => (hostVersion m, m)
  | GetStatusInformation => fun m => (info m, m)
  | TempDir => fun m => ("/tmp", m)
  | Stat name => fun m =>
      (if bool_decide (name ∈ dirs m) then Ok (mkFileInfo true)
       else if String.eqb name sysfsHeadersPath && sysfsPresent m
            then Ok (mkFileInfo false)
            else Err ErrNotExist, m)
  | Open name => fun m =>
      (match files m !! name with
       | Some r => Ok r
       | None => Err ErrNotExist
       end, m)
  | Close _ => fun m => (tt, m)
  | Command name _ => fun m =>
      if String.eqb name "modprobe" then
        if moduleLoads m then
          ((None, ""),
           mkMachine (hostVersion m) (info m) (files m) (dirs m) true
                     (moduleLoads m) (archiveUnpacks m))
        else ((None, "modprobe: FATAL: Module kheaders not found"), m)
      else
        ((None, ""),
         mkMachine (hostVersion m) (info m) (files m) (dirs m) false
                   (moduleLoads m) (archiveUnpacks m))
  | Unarchive _ destination => fun m =>
      if archiveUnpacks m then
        (None,
         mkMachine (hostVersion m) (info m) (files m)
                   ({[destination]} ∪ dirs m) (sysfsPresent m)
                   (moduleLoads m) (archiveUnpacks m))
      else (Some (Errorf "xz: corrupt input"), m)
  end.

(** The version.h of Linux 5.2.1. *)
Definition versionH : Reader :=
  mkReader
    ["#define LINUX_VERSION_CODE 328193";
     "#define KERNEL_VERSION(a,b,c) (((a) << 16) + ((b) << 8) + (c))"]
    None.

(** A debian host whose headers sit under [source] only. *)
Definition debian : Machine :=
  mkMachine (Ok 328193%N) (mkHostInfo "5.2.1-amd64" "debian")
    {[ "/lib/modules/5.2.1-amd64/source/include/generated/uapi/linux/version.h"
       := versionH ]}
    ∅ false false false.

(** A host without headers, whose kheaders module does not load. *)
Definition bare : Machine :=
  mkMachine (Ok 328193%N) (mkHostInfo "5.2.1" "arch") ∅ ∅ false false false.

(** A host without headers under /lib/modules, with a kheaders module that
    loads and an archive that unpacks. *)
Definition withModule : Machine :=
  mkMachine (Ok 328193%N) (mkHostInfo "5.2.1" "arch") ∅ ∅ false true true.

(** A host where an earlier run has left the unpacked headers behind. *)
Definition unpacked : Machine :=
  mkMachine (Ok 328193%N) (mkHostInfo "5.2.1" "arch")
    {[ "/tmp/linux-headers-328193/include/generated/uapi/linux/version.h"
       := versionH ]}
    {[ "/tmp/linux-headers-328193" ]} false false false.

End KernelDemo.

(** * Properties of the version.h parser *)

Section ParserFacts.

Import Kernel.

Lemma append_nil (s : string) : "" +:+ s = s.
Proof. reflexivity. Qed.

Lemma append_cons a (s t : string) : String a s +:+ t = String a (s +:+ t).
Proof. reflexivity. Qed.

Lemma stripPrefix_Some prefix s rest :
  stripPrefix prefix s = Some rest <-> s = prefix +:+ rest.
Proof.
  revert s. induction prefix as [| a prefix IH]; intros s.
  - rewrite append_nil. cbn. split; [by intros [= ->] | by intros ->].
  - rewrite append_cons. cbn.
    destruct s as [| b s]; [split; discriminate |].
    destruct (Ascii.eqb_spec a b) as [-> | Hab].
    + rewrite IH. split; [by intros -> | by intros [= ->]].
    + split; [discriminate | intros [= -> _]; done].
Qed.

Lemma digit_not_blank a : isDigit a = true -> isBlank a = false.
Proof.
  unfold isDigit, isBlank. intros Hd.
  apply andb_true_iff in Hd as [Hlo Hhi].
  apply Nat.leb_le in Hlo. apply Nat.leb_le in Hhi.
  destruct (Ascii.eqb_spec a "009"%char) as [-> | _];
    [vm_compute in Hlo; lia |].
  destruct (Ascii.eqb_spec a " "%char) as [-> | _];
    [vm_compute in Hlo; lia | done].
Qed.

Lemma dropBlanks_append ws rest :
  allBlank ws = true -> blankFree rest = true -> dropBlanks (ws +:+ rest) = rest.
Proof.
  intros Hws Hrest. induction ws as [| a ws IH].
  - rewrite append_nil. destruct rest as [| b rest]; [done |]. cbn in *.
    destruct (isBlank b); [discriminate | done].
  - rewrite append_cons. cbn in *.
    apply andb_true_iff in Hws as [-> Hws]. by apply IH.
Qed.

Lemma dropBlanks_split s :
  exists ws, s = ws +:+ dropBlanks s /\ allBlank ws = true.
Proof.
  induction s as [| a s (ws & Hs & Hws)]; [by exists ""|]. cbn.
  destruct (isBlank a) eqn:Ha.
  - exists (String a ws). rewrite append_cons. cbn. by rewrite <- Hs, Ha, Hws.
  - by exists "".
Qed.

Lemma dropBlanks_blankFree s : blankFree (dropBlanks s) = true.
Proof.
  induction s as [| a s IH]; [done |]. cbn.
  destruct (isBlank a) eqn:Ha; [done |]. cbn. by rewrite Ha.
Qed.

Lemma blanks1_Some s rest :
  blanks1 s = Some rest <->
  exists ws, s = ws +:+ rest /\ ws <> "" /\ allBlank ws = true /\
             blankFree rest = true.
Proof.
  split.
  - destruct s as [| a s]; [discriminate |]. cbn.
    destruct (isBlank a) eqn:Ha; [| discriminate]. intros [= <-].
    destruct (dropBlanks_split s) as (ws & Hs & Hws).
    exists (String a ws). rewrite append_cons. cbn. rewrite <- Hs, Ha, Hws.
    by rewrite dropBlanks_blankFree.
  - intros (ws & -> & Hne & Hws & Hrest).
    destruct ws as [| a ws]; [done |]. rewrite append_cons. cbn in *.
    apply andb_true_iff in Hws as [-> Hws].
    by rewrite dropBlanks_append.
Qed.

Lemma digits_blankFree digits : allDigits digits = true -> blankFree digits = true.
Proof.
  destruct digits as [| a digits]; [done |]. cbn.
  intros [Ha _]%andb_true_iff. by rewrite (digit_not_blank a Ha).
Qed.

Lemma findVersionCode_sound (line digits : string) :
  findVersionCode line = Some digits ->
  exists ws1 ws2,
    line = "#define" +:+ ws1 +:+ "LINUX_VERSION_CODE" +:+ ws2 +:+ digits /\
    ws1 <> "" /\ allBlank ws1 = true /\
    ws2 <> "" /\ allBlank ws2 = true /\
    digits <> "" /\ allDigits digits = true.
Proof.
  unfold findVersionCode.
  destruct (stripPrefix "#define" line) as [s1|] eqn:H1; [| discriminate].
  cbn [mbind option_bind].
  destruct (blanks1 s1) as [s2|] eqn:H2; [| discriminate].
  cbn [mbind option_bind].
  destruct (stripPrefix "LINUX_VERSION_CODE" s2) as [s3|] eqn:H3;
    [| discriminate].
  cbn [mbind option_bind].
  destruct (blanks1 s3) as [ds|] eqn:H4; [| discriminate].
  cbn [mbind option_bind].
  destruct ds as [| a ds]; [discriminate |].
  destruct (allDigits (String a ds)) eqn:Hd; [| discriminate].
  intros [= <-].
  apply stripPrefix_Some in H1, H3.
  apply blanks1_Some in H2 as (ws1 & -> & Hn1 & Hb1 & _).
  apply blanks1_Some in H4 as (ws2 & -> & Hn2 & Hb2 & _).
  exists ws1, ws2. subst. by repeat split.
Qed.

Lemma findVersionCode_complete (ws1 ws2 digits : string) :
  ws1 <> "" -> allBlank ws1 = true ->
  ws2 <> "" -> allBlank ws2 = true ->
  digits <> "" -> allDigits digits = true ->
  findVersionCode
    ("#define" +:+ ws1 +:+ "LINUX_VERSION_CODE" +:+ ws2 +:+ digits)
  = Some digits.
Proof.
  intros Hn1 Hb1 Hn2 Hb2 Hnd Hd. unfold findVersionCode.
  assert (stripPrefix "#define"
            ("#define" +:+ ws1 +:+ "LINUX_VERSION_CODE" +:+ ws2 +:+ digits)
          = Some (ws1 +:+ "LINUX_VERSION_CODE" +:+ ws2 +:+ digits)) as ->
    by by apply stripPrefix_Some.
  cbn [mbind option_bind].
  assert (blanks1 (ws1 +:+ "LINUX_VERSION_CODE" +:+ ws2 +:+ digits)
          = Some ("LINUX_VERSION_CODE" +:+ ws2 +:+ digits)) as ->.
  { apply blanks1_Some. exists ws1. by repeat split. }
  cbn [mbind option_bind].
  assert (stripPrefix "LINUX_VERSION_CODE"
            ("LINUX_VERSION_CODE" +:+ ws2 +:+ digits)
          = Some (ws2 +:+ digits)) as ->
    by by apply stripPrefix_Some.
  cbn [mbind option_bind].
  assert (blanks1 (ws2 +:+ digits) = Some digits) as ->.
  { apply blanks1_Some. exists ws2. repeat split; try done.
    by apply digits_blankFree. }
  cbn [mbind option_bind].
  destruct digits; [done |]. by rewrite Hd.
Qed.

(** X1. [findVersionCode] implements the regular expression: it yields the
    group [digits] exactly for the lines made of [#define], a non-empty run
    of tabs and spaces, [LINUX_VERSION_CODE], another such run, and a
    non-empty run of decimal digits up to the end of the line. *)
Theorem findVersionCode_matches_expression (line digits : string) :
  findVersionCode line = Some digits <->
  exists ws1 ws2,
    line = "#define" +:+ ws1 +:+ "LINUX_VERSION_CODE" +:+ ws2 +:+ digits /\
    ws1 <> "" /\ allBlank ws1 = true /\
    ws2 <> "" /\ allBlank ws2 = true /\
    digits <> "" /\ allDigits digits = true.
Proof.
  split.
  - apply findVersionCode_sound.
  - intros (ws1 & ws2 & -> & Hn1 & Hb1 & Hn2 & Hb2 & Hnd & Hd).
    by apply findVersionCode_complete.
Qed.

Lemma allDigits_string_of_uint d : allDigits (NilEmpty.string_of_uint d) = true.
Proof. induction d; cbn; by rewrite ?IHd. Qed.

Lemma to_uint_nonnil (n : N) : N.to_uint n <> Decimal.Nil.
Proof.
  destruct n as [| p]; [discriminate |]. apply DecimalPos.Unsigned.to_uint_nonnil.
Qed.

Lemma decimal_nonempty (n : N) : decimal n <> "".
Proof.
  unfold decimal. pose proof (to_uint_nonnil n) as Hn.
  by destruct (N.to_uint n).
Qed.

Lemma ParseUint_decimal (n : N) :
  (n < 2 ^ 32)%N -> ParseUint (decimal n) = Some n.
Proof.
  intros Hn. unfold ParseUint.
  pose proof (decimal_nonempty n) as Hne.
  destruct (decimal n) as [| a s] eqn:Hd; [done |]. rewrite <- Hd.
  unfold decimal. rewrite NilEmpty.usu. cbn [mbind option_bind].
  rewrite DecimalN.Unsigned.of_to.
  by destruct (N.ltb_spec n (2 ^ 32)); [| lia].
Qed.

Lemma ParseUint_bound s n : ParseUint s = Some n -> (n < 2 ^ 32)%N.
Proof.
  unfold ParseUint. destruct s as [| a s]; [discriminate |].
  destruct (NilEmpty.uint_of_string (String a s)) as [d|]; [| discriminate].
  cbn [mbind option_bind].
  destruct (N.ltb_spec (N.of_uint d) (2 ^ 32)); [| discriminate].
  by intros [= <-].
Qed.

Lemma scanLines_cons line rest :
  scanLines (line :: rest) =
  match lineVersion line with
  | Some code => Some code
  | None => scanLines rest
  end.
Proof.
  cbn [scanLines]. unfold lineVersion.
  destruct (findVersionCode line) as [digits|]; [| done].
  cbn [mbind option_bind]. by destruct (ParseUint digits).
Qed.

Lemma scanLines_app before after :
  scanLines (before ++ after) =
  match scanLines before with
  | Some code => Some code
  | None => scanLines after
  end.
Proof.
  induction before as [| line before IH]; [done |].
  rewrite <- app_comm_cons, !scanLines_cons.
  by destruct (lineVersion line).
Qed.

Lemma scanLines_None lines :
  scanLines lines = None <-> Forall (fun line => lineVersion line = None) lines.
Proof.
  induction lines as [| line lines IH].
  - split; [constructor | done].
  - rewrite scanLines_cons, Forall_cons.
    destruct (lineVersion line); [split; [discriminate | by intros [? _]] |].
    rewrite IH. tauto.
Qed.

(** X2. Round trip.  A header whose first line that yields a version is
    [#define LINUX_VERSION_CODE n], written with any non-empty runs of tabs
    and spaces and [n] below 2^32 in decimal, parses to [n]: the lines
    before it that yield nothing are skipped, and neither the lines after
    it nor a pending scanner error matter. *)
Theorem parseHeaderVersion_round_trip
    (code : N) (ws1 ws2 : string) (before after : list string)
    (err : option error) :
  (code < 2 ^ 32)%N ->
  ws1 <> "" -> allBlank ws1 = true ->
  ws2 <> "" -> allBlank ws2 = true ->
  Forall (fun line => lineVersion line = None) before ->
  parseHeaderVersion
    (mkReader
       (before ++
        ("#define" +:+ ws1 +:+ "LINUX_VERSION_CODE" +:+ ws2 +:+ decimal code)
        :: after)
       err)
  = Ok code.
Proof.
  intros Hcode Hn1 Hb1 Hn2 Hb2 Hbefore.
  unfold parseHeaderVersion. cbn [scanned].
  rewrite scanLines_app.
  apply scanLines_None in Hbefore as ->.
  rewrite scanLines_cons. unfold lineVersion.
  assert (findVersionCode
            ("#define" +:+ ws1 +:+ "LINUX_VERSION_CODE" +:+ ws2 +:+ decimal code)
          = Some (decimal code)) as ->.
  { apply findVersionCode_complete; try done.
    - apply decimal_nonempty.
    - apply allDigits_string_of_uint. }
  cbn [mbind option_bind]. by rewrite ParseUint_decimal.
Qed.

(** X3. Whatever the reader holds, a version [parseHeaderVersion] returns
    fits 32 bits and was read off a line of the reader that matches the
    expression; no line before that one yields a version. *)
Theorem parseHeaderVersion_Ok (r : Reader) (code : Version) :
  parseHeaderVersion r = Ok code ->
  (code < 2 ^ 32)%N /\
  exists before line after digits,
    scanned r = before ++ line :: after /\
    Forall (fun l => lineVersion l = None) before /\
    findVersionCode line = Some digits /\
    ParseUint digits = Some code.
Proof.
  unfold parseHeaderVersion.
  destruct (scanLines (scanned r)) as [c|] eqn:Hscan;
    [| by destruct (scanErr r)].
  intros [= <-].
  induction (scanned r) as [| line lines IH]; [discriminate |].
  rewrite scanLines_cons in Hscan.
  destruct (lineVersion line) as [c'|] eqn:Hline.
  - injection Hscan as ->. unfold lineVersion in Hline.
    destruct (findVersionCode line) as [digits|] eqn:Hfind; [| discriminate].
    cbn [mbind option_bind] in Hline. split.
    + by apply ParseUint_bound with digits.
    + by exists [], line, lines, digits.
  - destruct (IH Hscan) as (Hlt & before & l & after & digits & -> & Hb & Hf & Hp).
    split; [done |].
    exists (line :: before), l, after, digits.
    repeat split; try done. by constructor.
Qed.


Lemma ParseUint_decimal_out_of_range (n : N) :
  (2 ^ 32 <= n)%N -> ParseUint (decimal n) = None.
Proof.
  intros Hn. unfold ParseUint.
  pose proof (decimal_nonempty n) as Hne.
  destruct (decimal n) as [| a s] eqn:Hd; [done |]. rewrite <- Hd.
  unfold decimal. rewrite NilEmpty.usu. cbn [mbind option_bind].
  rewrite DecimalN.Unsigned.of_to.
  by destruct (N.ltb_spec n (2 ^ 32)); [lia |].
Qed.

(** X5. A define line whose number is 2^32 or more is not an error: the
    parse error is dropped and the scan goes on with the next line, so the
    result is that of the rest of the header. *)
Theorem parseHeaderVersion_skips_out_of_range
    (n : N) (ws1 ws2 : string) (rest : list string) (err : option error) :
  (2 ^ 32 <= n)%N ->
  ws1 <> "" -> allBlank ws1 = true ->
  ws2 <> "" -> allBlank ws2 = true ->
  parseHeaderVersion
    (mkReader
       (("#define" +:+ ws1 +:+ "LINUX_VERSION_CODE" +:+ ws2 +:+ decimal n)
        :: rest) err)
  = parseHeaderVersion (mkReader rest err).
Proof.
  intros Hn Hn1 Hb1 Hn2 Hb2.
  unfold parseHeaderVersion. cbn [scanned scanErr].
  rewrite scanLines_cons. unfold lineVersion.
  assert (findVersionCode
            ("#define" +:+ ws1 +:+ "LINUX_VERSION_CODE" +:+ ws2 +:+ decimal n)
          = Some (decimal n)) as ->.
  { apply findVersionCode_complete; try done.
    - apply decimal_nonempty.
    - apply allDigits_string_of_uint. }
  cbn [mbind option_bind]. by rewrite ParseUint_decimal_out_of_range.
Qed.

End ParserFacts.

(** * Properties of the header lookup *)

Section HeaderFacts.

Import Kernel.

Context {libs : Libs} {St : Type} (os : Handler St).

Lemma run_bind {A B} (m : Prog A) (f : A -> Prog B) st :
  run os (m ≫= f) st =
  let '(a, st1, log1) := run os m st in
  let '(b, st2, log2) := run os (f a) st1 in
  (b, st2, log1 ++ log2).
Proof.
  revert st. induction m as [a | c k IH]; intros st.
  - change (Ret a ≫= f) with (f a). cbn.
    by destruct (run os (f a) st) as [[b st2] log2].
  - change (Do c k ≫= f) with (Do c (fun x => k x ≫= f)). cbn.
    destruct (os c st) as [x st1]. rewrite IH.
    destruct (run os (k x) st1) as [[a st2] log1].
    by destruct (run os (f a) st2) as [[b st3] log2].
Qed.

Lemma run_call c st :
  run os (call c) st = ((os c st).1, (os c st).2, [mkEvent c (os c st).1]).
Proof. cbn. by destruct (os c st). Qed.

Lemma run_getHeaderVersion dir st :
  run os (getHeaderVersion dir) st =
  let '(f, st1) := os (Open (versionFile dir)) st in
  match f with
  | Err err => (Err err, st1, [mkEvent (Open (versionFile dir)) f])
  | Ok r =>
      (parseHeaderVersion r, (os (Close (versionFile dir)) st1).2,
       [mkEvent (Open (versionFile dir)) f;
        mkEvent (Close (versionFile dir))
                (os (Close (versionFile dir)) st1).1])
  end.
Proof.
  unfold getHeaderVersion, versionFile. cbn.
  destruct (os (Open _) st) as [[r | err] st1]; cbn; [| done].
  by destruct (os (Close _) st1).
Qed.

(** [getHeaderVersion] answers what [parseHeaderVersion] makes of the file
    it opened, and opens nothing else. *)
Lemma getHeaderVersion_log dir st :
  exists f log,
    (run os (getHeaderVersion dir) st).1.1 = headerVersionOf f /\
    (run os (getHeaderVersion dir) st).2 =
      mkEvent (Open (versionFile dir)) f :: log /\
    Forall (fun ev => called ev = Close (versionFile dir)) log.
Proof.
  rewrite run_getHeaderVersion.
  destruct (os (Open _) st) as [[r | err] st1]; cbn.
  - eexists (Ok r), _. repeat split. repeat constructor.
  - eexists (Err err), _. repeat split. constructor.
Qed.

Lemma tryDirs_cons v dirs d rest st :
  run os (tryDirs v dirs (d :: rest)) st =
  let '(r, st1, log1) := run os (getHeaderVersion d) st in
  if keepsLooking v r then
    let '(r', st2, log2) := run os (tryDirs v dirs rest) st1 in
    (r', st2, log1 ++ log2)
  else
    (match r with
     | Ok _ => Ok dirs
     | Err err => Err (Errorf ("error validating headers version: "
                               +:+ Error err))
     end, st1, log1).
Proof.
  cbn [tryDirs]. rewrite run_bind.
  destruct (run os (getHeaderVersion d) st) as [[r st1] log1].
  destruct r as [hv | err]; cbn [keepsLooking].
  - destruct (hv =? v)%N; cbn [negb].
    + cbn. by rewrite app_nil_r.
    + by destruct (run os (tryDirs v dirs rest) st1) as [[r' st2] log2].
  - destruct (IsNotExist err).
    + by destruct (run os (tryDirs v dirs rest) st1) as [[r' st2] log2].
    + cbn. by rewrite app_nil_r.
Qed.

(** What the loop of [getHeaderDirs] returns, read off the calls it made. *)
Lemma tryDirs_outcome v dirs todo st :
  let '(r, _, log) := run os (tryDirs v dirs todo) st in
  Forall (fun ev => isOpen (called ev) = true \/ exists n, called ev = Close n)
         log /\
  match r with
  | Ok ds =>
      ds = dirs /\
      exists d f,
        d ∈ todo /\ mkEvent (Open (versionFile d)) f ∈ log /\
        headerVersionOf f = Ok v
  | Err e =>
      if IsNotExist e then
        e = ErrNotExist /\
        forall d, d ∈ todo ->
          exists f, mkEvent (Open (versionFile d)) f ∈ log /\
                    keepsLooking v (headerVersionOf f) = true
      else
        exists d f err,
          d ∈ todo /\ mkEvent (Open (versionFile d)) f ∈ log /\
          headerVersionOf f = Err err /\ IsNotExist err = false /\
          e = Errorf ("error validating headers version: " +:+ Error err)
  end.
Proof.
  revert st. induction todo as [| d rest IH]; intros st.
  - cbn. split; [constructor |]. split; [done |]. intros d Hd. by inversion Hd.
  - rewrite tryDirs_cons.
    destruct (getHeaderVersion_log d st) as (f & clog & Hr & Hlog & Hclose).
    destruct (run os (getHeaderVersion d) st) as [[r st1] log1].
    cbn in Hr, Hlog. subst r log1.
    assert (Forall (fun ev => isOpen (called ev) = true \/
                              exists n, called ev = Close n)
                   (mkEvent (Open (versionFile d)) f :: clog)) as Hcalls.
    { constructor; [by left |].
      eapply Forall_impl; [exact Hclose |]. intros ev Hev. right.
      by exists (versionFile d). }
    destruct (keepsLooking v (headerVersionOf f)) eqn:Hkeep.
    + specialize (IH st1).
      destruct (run os (tryDirs v dirs rest) st1) as [[r' st2] log2].
      destruct IH as [Hcalls2 IH].
      split; [by apply Forall_app |].
      destruct r' as [ds | e].
      * destruct IH as (-> & d' & f' & Hd' & Hev & Hv). split; [done |].
        exists d', f'. split; [by right |]. split; [| done].
        apply elem_of_app. by right.
      * destruct (IsNotExist e).
        -- destruct IH as [-> IH]. split; [done |].
           intros d' [-> | Hd']%elem_of_cons.
           ++ exists f. split; [by left | done].
           ++ destruct (IH d' Hd') as (f' & Hev & Hk).
              exists f'. split; [| done]. apply elem_of_app. by right.
        -- destruct IH as (d' & f' & err & Hd' & Hev & Hv & Hn & ->).
           exists d', f', err. split; [by right |].
           split; [apply elem_of_app; by right | done].
    + split; [done |].
      destruct (headerVersionOf f) as [hv | err] eqn:Hv; cbn in Hkeep.
      * split; [done |]. exists d, f. split; [by left |]. split; [by left |].
        apply negb_false_iff, N.eqb_eq in Hkeep. by rewrite Hv, Hkeep.
      * cbn [IsNotExist Errorf]. exists d, f, err.
        split; [by left |]. split; [by left | done].
Qed.

Lemma run_getHeaderDirs v st :
  run os (getHeaderDirs v) st =
  let '(hi, st1) := os GetStatusInformation st in
  if String.eqb (KernelVersion hi) "" then
    (Err (Errorf "unable to get host metadata"), st1,
     [mkEvent GetStatusInformation hi])
  else
    let '(r, st2, log) :=
      run os (tryDirs v (candidateDirs hi) (candidateDirs hi)) st1 in
    (r, st2, mkEvent GetStatusInformation hi :: log).
Proof.
  unfold getHeaderDirs.
  change (call GetStatusInformation ≫= ?f)
    with (Do GetStatusInformation (fun x => Ret x ≫= f)).
  cbn [run].
  destruct (os GetStatusInformation st) as [hi st1].
  change (Ret hi ≫= ?f) with (f hi). cbn beta.
  destruct (String.eqb (KernelVersion hi) ""); [done |].
  by destruct (run os (tryDirs _ _ _) st1) as [[r st2] log].
Qed.

(** What [getHeaderDirs] returns, read off the calls it made. *)
Lemma getHeaderDirs_outcome v st :
  let hi := (os GetStatusInformation st).1 in
  let '(r, _, log) := run os (getHeaderDirs v) st in
  match r with
  | Ok dirs =>
      KernelVersion hi <> "" /\ dirs = candidateDirs hi /\
      exists d f,
        d ∈ dirs /\ mkEvent (Open (versionFile d)) f ∈ log /\
        headerVersionOf f = Ok v
  | Err e =>
      IsNotExist e = true ->
      e = ErrNotExist /\ KernelVersion hi <> "" /\
      forall d, d ∈ candidateDirs hi ->
        exists f, mkEvent (Open (versionFile d)) f ∈ log /\
                  keepsLooking v (headerVersionOf f) = true
  end.
Proof.
  rewrite run_getHeaderDirs.
  destruct (os GetStatusInformation st) as [hi st1]. cbn [fst].
  destruct (String.eqb_spec (KernelVersion hi) "") as [| Hkv];
    [discriminate |].
  pose proof (tryDirs_outcome v (candidateDirs hi) (candidateDirs hi) st1)
    as Hout.
  destruct (run os (tryDirs _ _ _) st1) as [[r st2] log1].
  destruct Hout as (_ & Hout). destruct r as [dirs | e].
  - destruct Hout as (-> & d & f & Hd & Hev & Hv).
    split; [done |]. split; [done |].
    exists d, f. split; [done |]. split; [by right | done].
  - intros Hne. rewrite Hne in Hout. destruct Hout as [-> Hall].
    split; [done |]. split; [done |].
    intros d Hd. destruct (Hall d Hd) as (f & Hev & Hkeep).
    exists f. split; [by right | done].
Qed.

Lemma candidateDirs_shape hi :
  candidateDirs hi =
  if String.eqb (Platform hi) "debian"
  then ["/lib/modules/" +:+ KernelVersion hi +:+ "/build";
        "/lib/modules/" +:+ KernelVersion hi +:+ "/source"]
  else ["/lib/modules/" +:+ KernelVersion hi +:+ "/build"].
Proof. unfold candidateDirs. by destruct (String.eqb (Platform hi) "debian"). Qed.

(** X6. When [getHeaderDirs] succeeds it returns every directory it had
    on its list, not the one that matched: [/lib/modules/<release>/build]
    and, on debian, [/lib/modules/<release>/source] as well.  One of them
    holds a version.h that parses to the wanted version; the other need
    not even exist. *)
Theorem getHeaderDirs_returns_all_candidates
    (v : Version) (st st' : St) (dirs : list string) (log : list Event) :
  run os (getHeaderDirs v) st = (Ok dirs, st', log) ->
  let hi := (os GetStatusInformation st).1 in
  KernelVersion hi <> "" /\
  dirs = (if String.eqb (Platform hi) "debian"
          then ["/lib/modules/" +:+ KernelVersion hi +:+ "/build";
                "/lib/modules/" +:+ KernelVersion hi +:+ "/source"]
          else ["/lib/modules/" +:+ KernelVersion hi +:+ "/build"]) /\
  exists d f,
    d ∈ dirs /\ mkEvent (Open (versionFile d)) f ∈ log /\
    headerVersionOf f = Ok v.
Proof.
  intros Hrun hi. pose proof (getHeaderDirs_outcome v st) as Hout.
  cbn zeta in Hout. rewrite Hrun in Hout.
  destruct Hout as (Hkv & Hdirs & Hmatch).
  split; [done |]. split; [| done].
  by rewrite Hdirs, candidateDirs_shape.
Qed.



(** The calls [getHeaderDirs] makes: host information, then files opened
    and closed. *)
Lemma getHeaderDirs_calls v st :
  Forall (fun ev => called ev = GetStatusInformation \/
                    isOpen (called ev) = true \/
                    exists n, called ev = Close n)
         (run os (getHeaderDirs v) st).2.
Proof.
  rewrite run_getHeaderDirs.
  destruct (os GetStatusInformation st) as [hi st1].
  destruct (String.eqb (KernelVersion hi) "").
  - cbn. repeat constructor.
  - pose proof (tryDirs_outcome v (candidateDirs hi) (candidateDirs hi) st1)
      as Hout.
    destruct (run os (tryDirs _ _ _) st1) as [[r st2] log1].
    destruct Hout as [Hcalls _]. cbn. constructor; [by left |].
    eapply Forall_impl; [exact Hcalls |]. intros ev Hev. by right.
Qed.

End HeaderFacts.

Section SysfsFacts.

Import Kernel.

Context {libs : Libs} {St : Type} (os : Handler St).

(** Case analysis over the answers of the operating system, call by call,
    along every path of a function. *)
Ltac crunch := repeat first
  [ match goal with
    | |- context [os ?c ?s] =>
        destruct (os c s) as [? ?] eqn:?; cbn in *
    end
  | match goal with
    | |- context [match ?x with _ => _ end] => is_var x; destruct x; cbn in *
    end
  | match goal with
    | |- context [failed ?e] => is_var e; destruct e; cbn in *
    end
  | match goal with
    | |- context [String.length ?s] => is_var s; destruct s; cbn in *
    end
  | match goal with
    | |- context [match parseHeaderVersion ?r with _ => _ end] =>
        destruct (parseHeaderVersion r) eqn:?; cbn in *
    end
  | match goal with
    | |- context [if ?b then _ else _] => destruct b eqn:?; cbn in *
    end ].

Ltac enter_getSysfsHeaderDirs :=
  unfold getSysfsHeaderDirs, getHeaderVersion, sysfsHeadersExist,
    loadKHeadersModule, unloadKHeadersModule, extractHeaders, call;
  unfold mbind, Prog_bind, mret, Prog_ret; cbn.

(** X8. [getSysfsHeaderDirs] unloads the kheaders module exactly when it
    has loaded it: along every path, whatever the operating system answers,
    there are as many [rmmod] calls as successful [modprobe] calls, at most
    one of each, and the [rmmod] call is the last call of the function, also
    when the headers are still missing after the load or the extraction
    fails. *)
Theorem getSysfsHeaderDirs_unloads_what_it_loaded (v : Version) (st : St) :
  let log := (run os (getSysfsHeaderDirs v) st).2 in
  length (List.filter unloadsModule log)
  = length (List.filter loadedModule log) /\
  (length (List.filter loadedModule log) <= 1)%nat /\
  forall ev, ev ∈ log -> unloadsModule ev = true -> last log = Some ev.
Proof.
  enter_getSysfsHeaderDirs. crunch.
  all: split; [reflexivity |]; split; [lia |].
  all: intros ev Hev Hun.
  all: repeat match goal with
       | H : _ ∈ _ :: _ |- _ => apply elem_of_cons in H as [-> | H]
       | H : _ ∈ [] |- _ => by apply elem_of_nil in H
       end.
  all: try discriminate Hun.
  all: reflexivity.
Qed.

(** X9. A temporary directory that is already there is what
    [getSysfsHeaderDirs] goes by: it runs no command and unpacks nothing,
    and it succeeds, with that directory alone, exactly when the version.h
    in it parses to the wanted version.  A directory left over from
    another kernel is an error, not a reason to unpack again. *)
Theorem getSysfsHeaderDirs_uses_existing_directory
    (v : Version) (st st1 st2 : St) (tmp : string) :
  let tmpPath := Join tmp ("linux-headers-" +:+ VersionString v) in
  os TempDir st = (tmp, st1) ->
  os (Stat tmpPath) st1 = (Ok (mkFileInfo true), st2) ->
  let '(r, _, log) := run os (getSysfsHeaderDirs v) st in
  Forall (fun ev => isCommand (called ev) = false /\
                    isUnarchive (called ev) = false) log /\
  (r = Ok [tmpPath] <->
   headerVersionOf (os (Open (versionFile tmpPath)) st2).1 = Ok v).
Proof.
  intros tmpPath Htmp Hstat. subst tmpPath. unfold versionFile.
  enter_getSysfsHeaderDirs. rewrite Htmp. cbn. rewrite Hstat. cbn.
  crunch.
  all: split; [by repeat constructor |].
  all: repeat match goal with
       | H : (_ =? _)%N = true |- _ => apply N.eqb_eq in H
       | H : (_ =? _)%N = false |- _ => apply N.eqb_neq in H
       | H : negb _ = true |- _ => apply negb_true_iff in H
       | H : negb _ = false |- _ => apply negb_false_iff in H
       end.
  all: split; intros Heq; try discriminate Heq; try congruence.
Qed.

(** X10. The headers [getSysfsHeaderDirs] unpacks are returned as they
    are: on a path with an [Unarchive] call no file is ever opened, so the
    version of the unpacked headers is not checked; and whenever the
    function succeeds its result is the temporary directory alone. *)
Theorem getSysfsHeaderDirs_result
    (v : Version) (st : St) :
  let '(r, _, log) := run os (getSysfsHeaderDirs v) st in
  (Exists (fun ev => isUnarchive (called ev) = true) log ->
   Forall (fun ev => isOpen (called ev) = false) log) /\
  (forall dirs, r = Ok dirs ->
     dirs = [Join (os TempDir st).1
               ("linux-headers-" +:+ VersionString v)]) /\
  exists answer log', log = mkEvent TempDir answer :: log'.
Proof.
  enter_getSysfsHeaderDirs. crunch.
  all: split;
    [ intros Hex; repeat constructor;
      repeat match goal with
        | H : Exists _ (_ :: _) |- _ => apply Exists_cons in H as [H | H]
        | H : Exists _ [] |- _ => by apply Exists_nil in H
        end; discriminate
    | ].
  all: split; [intros dirs Heq; by (discriminate Heq || injection Heq as <-) |].
  all: by eexists _, _.
Qed.

(** A success of [getSysfsHeaderDirs] is the temporary directory alone. *)
Lemma getSysfsHeaderDirs_Ok v st dirs :
  (run os (getSysfsHeaderDirs v) st).1.1 = Ok dirs ->
  dirs = [Join (os TempDir st).1 ("linux-headers-" +:+ VersionString v)].
Proof.
  enter_getSysfsHeaderDirs. crunch.
  all: intros Heq; by (discriminate Heq || injection Heq as <-).
Qed.

Lemma run_FindHeaderDirs st :
  run os FindHeaderDirs st =
  let '(hv, st1) := os HostVersion st in
  match hv with
  | Err err =>
      (Err (Errorf ("unable to determine host kernel version: "
                    +:+ Error err)), st1, [mkEvent HostVersion hv])
  | Ok v =>
      let '(r, st2, log1) := run os (getHeaderDirs v) st1 in
      match r with
      | Ok dir => (Ok dir, st2, mkEvent HostVersion hv :: log1)
      | Err err =>
          if IsNotExist err then
            let '(r', st3, log2) := run os (getSysfsHeaderDirs v) st2 in
            (match r' with Ok dir => Ok dir | Err _ => Err err end, st3,
             mkEvent HostVersion hv :: log1 ++ log2)
          else (Err err, st2, mkEvent HostVersion hv :: log1)
      end
  end.
Proof.
  unfold FindHeaderDirs.
  change (call HostVersion ≫= ?f) with (Do HostVersion (fun x => Ret x ≫= f)).
  cbn [run]. destruct (os HostVersion st) as [hv st1].
  change (Ret hv ≫= ?f) with (f hv). cbn beta.
  destruct hv as [v | err]; [| done].
  rewrite run_bind.
  destruct (run os (getHeaderDirs v) st1) as [[r st2] log1].
  destruct r as [dir | err]; [cbn; by rewrite app_nil_r |].
  destruct (IsNotExist err); [| cbn; by rewrite app_nil_r].
  rewrite run_bind.
  destruct (run os (getSysfsHeaderDirs v) st2) as [[r' st3] log2].
  destruct r'; cbn; by rewrite app_nil_r.
Qed.

(** X11. The caller of [FindHeaderDirs] never sees why the sysfs fallback
    failed.  Whenever the fallback was entered (the temporary directory was
    asked for) and [FindHeaderDirs] fails, the error is [os.ErrNotExist],
    whatever went wrong with the module, the archive or the version of a
    directory left over. *)
Theorem FindHeaderDirs_masks_fallback_error
    (st st' : St) (e : error) (log : list Event) :
  run os FindHeaderDirs st = (Err e, st', log) ->
  Exists (fun ev => called ev = TempDir) log ->
  e = ErrNotExist.
Proof.
  rewrite run_FindHeaderDirs.
  destruct (os HostVersion st) as [[v | err] st1].
  2: { intros [= <- <- <-] Hex.
       apply Exists_cons in Hex as [Hex | Hex]; [discriminate |].
       by apply Exists_nil in Hex. }
  pose proof (getHeaderDirs_calls os v st1) as Hcalls.
  pose proof (getHeaderDirs_outcome os v st1) as Hne. cbn zeta in Hne.
  destruct (run os (getHeaderDirs v) st1) as [[r st2] log1].
  cbn [snd] in Hcalls.
  assert (~ Exists (fun ev => called ev = TempDir) log1) as Hno.
  { intros Hex. apply Exists_exists in Hex as (ev & Hev & Hcall).
    rewrite Forall_forall in Hcalls. specialize (Hcalls ev Hev).
    rewrite Hcall in Hcalls.
    destruct Hcalls as [? | [? | [n ?]]]; discriminate. }
  destruct r as [dir | err]; [discriminate |].
  destruct (IsNotExist err) eqn:Hflag.
  - destruct (run os (getSysfsHeaderDirs v) st2) as [[r' st3] log2].
    destruct r' as [dir | err']; [discriminate |].
    intros [= <- <- <-] _.
    by destruct (Hne eq_refl) as [-> _].
  - intros [= <- <- <-] Hex.
    apply Exists_cons in Hex as [Hex | Hex]; [discriminate | done].
Qed.

(** X12. What [FindHeaderDirs] returns on success is never empty: it is
    the one or two directories under [/lib/modules/<release>] of
    [getHeaderDirs], or the one temporary directory of the sysfs
    fallback. *)
Theorem FindHeaderDirs_Ok
    (st st' : St) (dirs : list string) (log : list Event) :
  run os FindHeaderDirs st = (Ok dirs, st', log) ->
  dirs <> [] /\
  ((exists release,
      release <> "" /\
      (dirs = ["/lib/modules/" +:+ release +:+ "/build"] \/
       dirs = ["/lib/modules/" +:+ release +:+ "/build";
               "/lib/modules/" +:+ release +:+ "/source"])) \/
   (exists tmp v,
      dirs = [Join tmp ("linux-headers-" +:+ VersionString v)])).
Proof.
  rewrite run_FindHeaderDirs.
  destruct (os HostVersion st) as [[v | err] st1]; [| discriminate].
  pose proof (getHeaderDirs_outcome os v st1) as Hok. cbn zeta in Hok.
  destruct (run os (getHeaderDirs v) st1) as [[r st2] log1].
  destruct r as [dir | err].
  - intros [= -> <- <-].
    destruct Hok as (Hrel & -> & _). rewrite candidateDirs_shape.
    destruct (String.eqb (Platform _) "debian").
    + split; [done |]. left. eexists. split; [exact Hrel |]. by right.
    + split; [done |]. left. eexists. split; [exact Hrel |]. by left.
  - destruct (IsNotExist err); [| discriminate].
    pose proof (getSysfsHeaderDirs_Ok v st2) as Hshape.
    destruct (run os (getSysfsHeaderDirs v) st2) as [[r' st3] log2].
    destruct r' as [dir | err']; [| discriminate].
    intros [= -> <- <-].
    rewrite (Hshape dirs eq_refl). split; [done |]. right. by eexists _, _.
Qed.

End SysfsFacts.

(** * More on the engine *)

Section EngineMore.

Context {pkg : Package}.

(** The span store [Sample] leaves behind, exactly: the root is annotated
    when the priority is 1 and the root is unrated, and nothing is touched
    otherwise. *)
Lemma Sample_spans trace root env w sp p ok :
  trace <> [] ->
  spans w !! root = Some sp ->
  GetSamplingPriority root w = Some ((p, ok), w) ->
  exists w' val,
    Sample trace root env w = Some (0 <? p, w') /\
    spans w' =
      if negb (p <? 0) && negb (1 <? p) && (0 <? p) && unrated sp
      then <[root := withLegacyRate sp val]> (spans w)
      else spans w.
Proof.
  intros Hne Hroot Hprio.
  unfold Sample. destruct trace; [congruence | cbn [length Nat.eqb]].
  rewrite (bind_run _ _ _ _ _ Hprio). cbn beta iota.
  destruct (p <? 0); [by exists w, 0%float |].
  destruct (1 <? p); [by exists w, 0%float |].
  rewrite (bind_run _ _ _ _ _ (deref_run _ _ _ Hroot)).
  destruct (register_spans (mkServiceSignature (Service sp) env) w)
    as (signature & w1 & Hreg & Hsp1).
  rewrite (bind_run _ _ _ _ _ Hreg).
  rewrite (bind_run _ _ _ _ _ (CountSignature_run signature w1)).
  destruct (0 <? p); [| eexists _, 0%float; split; [reflexivity | done]].
  erewrite bind_run;
    [| apply (applyRate_run _ _ _ sp); cbn [spans]; by rewrite Hsp1].
  erewrite bind_run; [| apply CountSample_run].
  cbn [negb andb].
  destruct (unrated sp); [eexists _, _ | eexists _, 0%float];
    (split; [reflexivity |]); cbn [spans]; by rewrite Hsp1.
Qed.

Lemma priorityOf_withLegacyRate sp val :
  KeySamplingPriority <> deprecatedRateKey ->
  priorityOf (withLegacyRate sp val) = priorityOf sp.
Proof.
  intros Hkey. unfold priorityOf, withLegacyRate. cbn [Metrics].
  by rewrite lookup_insert_ne.
Qed.

(** X13. Sampling the same trace again changes no span.  Provided the
    priority is not stored under the legacy rate key, a second call of
    [Sample] on the same root takes the same decision as the first and
    leaves every span, the annotation of the root included, as the first
    call left it; only the counters move on. *)
Theorem Sample_twice
    (trace : Trace) (root : ptr) (env1 env2 : string) (w : World) :
  KeySamplingPriority <> deprecatedRateKey ->
  trace <> [] ->
  is_Some (spans w !! root) ->
  exists b w1 w2,
    Sample trace root env1 w = Some (b, w1) /\
    Sample trace root env2 w1 = Some (b, w2) /\
    spans w2 = spans w1.
Proof.
  intros Hkey Hne [sp Hroot].
  destruct (priorityOf sp) as [p ok] eqn:Hp.
  assert (GetSamplingPriority root w = Some ((p, ok), w)) as Hprio
    by by rewrite (GetSamplingPriority_run _ _ _ Hroot), Hp.
  destruct (Sample_spans trace root env1 w sp p ok Hne Hroot Hprio)
    as (w1 & val & Hrun1 & Hsp1).
  set (hit := negb (p <? 0) && negb (1 <? p) && (0 <? p) && unrated sp) in Hsp1.
  assert (exists sp1,
            spans w1 !! root = Some sp1 /\ priorityOf sp1 = (p, ok) /\
            (hit = true -> unrated sp1 = false) /\
            (hit = false -> sp1 = sp)) as (sp1 & Hroot1 & Hp1 & Hhit & Hmiss).
  { rewrite Hsp1. destruct hit.
    - exists (withLegacyRate sp val). rewrite lookup_insert_eq.
      split; [done |]. split; [by rewrite priorityOf_withLegacyRate |].
      split; [intros _; apply unrated_withLegacyRate | done].
    - exists sp. by repeat split. }
  assert (GetSamplingPriority root w1 = Some ((p, ok), w1)) as Hprio1
    by by rewrite (GetSamplingPriority_run _ _ _ Hroot1), Hp1.
  destruct (Sample_spans trace root env2 w1 sp1 p ok Hne Hroot1 Hprio1)
    as (w2 & val2 & Hrun2 & Hsp2).
  exists (0 <? p), w1, w2. split; [done |]. split; [done |].
  rewrite Hsp2.
  destruct (negb (p <? 0) && negb (1 <? p) && (0 <? p) && unrated sp1)
    eqn:Hhit2; [| done].
  exfalso. destruct hit eqn:Hh.
  - rewrite (Hhit eq_refl), andb_false_r in Hhit2. discriminate.
  - rewrite (Hmiss eq_refl) in Hhit2. unfold hit in Hh. congruence.
Qed.

(** X14. A rate [applyRate] writes is never strictly between the threshold
    and 1: a client reading [_sampling_priority_rate_v1] after [applyRate]
    has set it sees 1, or a rate that does not exceed 0.3 (or is not a
    number). *)
Theorem applyRate_no_rate_between
    (sampled : bool) (root : ptr) (signature : Signature)
    (w : World) (sp : Span) :
  spans w !! root = Some sp ->
  Metrics sp !! deprecatedRateKey = None ->
  exists w',
    applyRate sampled root signature w = Some (tt, w') /\
    forall sp' val,
      spans w' !! root = Some sp' ->
      Metrics sp' !! deprecatedRateKey = Some val ->
      PrimFloat.ltb prioritySamplingRateThresholdTo1 val
      && PrimFloat.ltb val 1%float = false.
Proof.
  intros Hroot Hold.
  rewrite (applyRate_run _ _ _ _ _ Hroot). eexists. split; [reflexivity |].
  intros sp' val Hroot' Hnew.
  destruct (unrated sp).
  - cbn [spans] in Hroot'. rewrite lookup_insert_eq in Hroot'.
    injection Hroot' as <-. cbn [withLegacyRate Metrics] in Hnew.
    rewrite lookup_insert_eq in Hnew. injection Hnew as <-.
    destruct (PrimFloat.ltb prioritySamplingRateThresholdTo1
                (GetSignatureSampleRate (sampler (engine w)) signature))
      eqn:Hcmp.
    + reflexivity.
    + by rewrite Hcmp.
  - congruence.
Qed.

(** X15. [applyRate] touches nothing but the root: whatever it decides,
    the engine (catalog, scores, counters and configuration) and every
    other span are as before, and no span appears or disappears. *)
Theorem applyRate_frame
    (sampled : bool) (root : ptr) (signature : Signature) (w w' : World) :
  applyRate sampled root signature w = Some (tt, w') ->
  engine w' = engine w /\
  (forall q, q <> root -> spans w' !! q = spans w !! q) /\
  dom (spans w') = dom (spans w).
Proof.
  intros Hrun.
  destruct (spans w !! root) as [sp|] eqn:Hroot.
  - rewrite (applyRate_run _ _ _ _ _ Hroot) in Hrun. injection Hrun as <-.
    destruct (unrated sp); [| done]. cbn [engine spans].
    split; [done |]. split.
    + intros q Hq. by rewrite lookup_insert_ne.
    + rewrite dom_insert_L. apply elem_of_dom_2 in Hroot.
      apply subseteq_union_1_L. by apply singleton_subseteq_l.
  - by rewrite (applyRate_panic _ _ _ _ Hroot) in Hrun.
Qed.

(** X16. In the band of priorities 0 and 1 every trace is counted, kept or
    not: [Sample] registers the (service, environment) pair of the root,
    adds one to the score of its signature and to no other, and adds one to
    the sampled counter exactly when the priority is 1.  A trace of
    priority 0 is dropped with every span untouched. *)
Theorem Sample_counts_in_band
    (trace : Trace) (root : ptr) (env : string) (w : World) (sp : Span)
    (p : SamplingPriority) (ok : bool) :
  trace <> [] ->
  spans w !! root = Some sp ->
  GetSamplingPriority root w = Some ((p, ok), w) ->
  0 <= p <= 1 ->
  exists signature w1 w',
    register (mkServiceSignature (Service sp) env) w = Some (signature, w1) /\
    Sample trace root env w = Some (0 <? p, w') /\
    catalog (engine w') = catalog (engine w1) /\
    scoreOf w' signature = (scoreOf w1 signature + 1)%N /\
    (forall other, other <> signature -> scoreOf w' other = scoreOf w1 other) /\
    sampledOf w' = (sampledOf w1 + (if (0 <? p)%Z then 1 else 0))%N /\
    (p = 0 -> spans w' = spans w).
Proof.
  intros Hne Hroot Hprio Hband.
  unfold Sample. destruct trace; [congruence | cbn [length Nat.eqb]].
  rewrite (bind_run _ _ _ _ _ Hprio). cbn beta iota.
  assert ((p <? 0) = false) as -> by lia.
  assert ((1 <? p) = false) as -> by lia.
  rewrite (bind_run _ _ _ _ _ (deref_run _ _ _ Hroot)).
  destruct (register_spans (mkServiceSignature (Service sp) env) w)
    as (signature & w1 & Hreg & Hsp1).
  rewrite (bind_run _ _ _ _ _ Hreg).
  rewrite (bind_run _ _ _ _ _ (CountSignature_run signature w1)).
  exists signature, w1.
  destruct (0 <? p) eqn:Hpos.
  - erewrite bind_run;
      [| apply (applyRate_run _ _ _ sp); cbn [spans]; by rewrite Hsp1].
    erewrite bind_run; [| apply CountSample_run].
    eexists. split; [done |]. split; [reflexivity |].
    unfold scoreOf, sampledOf.
    destruct (unrated sp); cbn.
    all: split; [reflexivity |].
    all: split; [by rewrite lookup_insert_eq |].
    all: split; [by intros other Hother; rewrite lookup_insert_ne |].
    all: split; [reflexivity | lia].
  - eexists. split; [done |]. split; [reflexivity |].
    unfold scoreOf, sampledOf. cbn.
    split; [reflexivity |].
    split; [by rewrite lookup_insert_eq |].
    split; [by intros other Hother; rewrite lookup_insert_ne |].
    split; [by rewrite N.add_0_r | done].
Qed.

End EngineMore.

(** * More on the life cycle *)

Section LifecycleMore.

Import Lifecycle.

Variable joinCore : bool.

Lemma ordered_init : ordered init.
Proof. split; [discriminate | done]. Qed.

Lemma fire_ordered a l l' :
  fire joinCore a l = Some l' -> ordered l -> ordered l'.
Proof.
  destruct l as [r c y t sig ex n pub].
  destruct a; cbn [fire]; intros Hfire.
  all: match type of Hfire with
       | context [match ?pc with _ => _ end] => destruct pc; try discriminate
       end.
  all: repeat match type of Hfire with
       | context [if ?b then _ else _] =>
           destruct b eqn:?; try discriminate
       end.
  all: injection Hfire as <-.
  all: unfold ordered; cbn.
  all: intros [Hex Hsync]; split; try done; try tauto.
  all: try (intros Hc; destruct (Hex Hc); discriminate).
  all: try (destruct y; done).
Qed.

Lemma schedule_ordered acts l l' :
  schedule joinCore acts l = Some l' -> ordered l -> ordered l'.
Proof.
  revert l. induction acts as [| a rest IH]; intros l; cbn [schedule].
  - by intros [= <-].
  - destruct (fire joinCore a l) as [l1|] eqn:Hfire; [| discriminate].
    intros Hrest Hl. apply (IH l1 Hrest). by apply fire_ordered with a l.
Qed.

(** X17. [Run] does not return before [Stop] has closed the [exit]
    channel: in every state a schedule can reach, if [Run] has returned
    then the channel is closed and [Stop] has been called and is past
    [close(s.exit)]; it need not have returned yet. *)
Theorem Run_returns_only_after_Stop (l : Life) :
  reachable joinCore l ->
  runPc l = RunReturned ->
  exitClosed l = true /\
  (stopPc l = StopAfterClose \/ stopPc l = StopReturned).
Proof.
  intros Hreach Hrun.
  pose proof (reachable_consistent joinCore l Hreach) as [Hcons _].
  destruct Hreach as [acts Hacts].
  pose proof (schedule_ordered acts init l Hacts ordered_init) as [Hex Hsync].
  rewrite Hrun in Hcons. destruct Hcons as (_ & _ & Hdone).
  assert (exitClosed l = true) as Hclosed
    by (destruct (syncPc l); done).
  split; [done | by apply Hex].
Qed.

(** X18. The wait group never goes negative, so [wg.Done()] cannot panic:
    in every state a schedule can reach its counter is 0, 1 or 2, and it is
    the number of the two goroutines that have not yet called [wg.Done()]
    once [wg.Add(2)] has run. *)
Theorem wait_group_counter_in_range (l : Life) :
  reachable joinCore l ->
  0 <= wg l <= 2 /\
  (runPc l <> RunAdd -> wg l = pending l).
Proof.
  intros Hreach.
  pose proof (reachable_consistent joinCore l Hreach) as [Hcons _].
  destruct l as [r c y t sig ex n pub]. unfold pending in *. cbn in *.
  destruct r, c, y; cbn in *; destruct Hcons as (Hwg & Hc & Hy);
    try discriminate; try done; (split; [lia |]); intros Hr; done || lia.
Qed.

End LifecycleMore.

(** * The added theorems at work *)

Lemma parseHeaderVersion_round_trip_witness :
  Kernel.parseHeaderVersion
    (Kernel.mkReader
       ["/* generated */"; "#define LINUX_VERSION_CODE 328193";
        "#define LINUX_VERSION_CODE 1"]
       (Some (Kernel.Errorf "read error")))
  = Kernel.Ok 328193%N.
Proof.
  apply (parseHeaderVersion_round_trip 328193%N " " " " ["/* generated */"]
           ["#define LINUX_VERSION_CODE 1"]
           (Some (Kernel.Errorf "read error"))).
  - reflexivity.
  - discriminate.
  - reflexivity.
  - discriminate.
  - reflexivity.
  - repeat constructor.
Defined.

Lemma parseHeaderVersion_Ok_witness :
  Kernel.parseHeaderVersion KernelDemo.versionH = Kernel.Ok 328193%N /\
  (328193 < 2 ^ 32)%N.
Proof.
  assert (Kernel.parseHeaderVersion KernelDemo.versionH = Kernel.Ok 328193%N)
    as Hparse by reflexivity.
  split; [exact Hparse |].
  exact (proj1 (parseHeaderVersion_Ok KernelDemo.versionH 328193%N Hparse)).
Defined.

(** 4294967296 is 2^32: the line is passed over and the next one counts. *)
Lemma parseHeaderVersion_skips_out_of_range_witness :
  Kernel.parseHeaderVersion
    (Kernel.mkReader
       ["#define LINUX_VERSION_CODE 4294967296";
        "#define LINUX_VERSION_CODE 328193"] None)
  = Kernel.Ok 328193%N.
Proof.
  transitivity
    (Kernel.parseHeaderVersion
       (Kernel.mkReader ["#define LINUX_VERSION_CODE 328193"] None));
    [| reflexivity].
  apply (parseHeaderVersion_skips_out_of_range 4294967296%N " " " "
           ["#define LINUX_VERSION_CODE 328193"] None).
  - discriminate.
  - discriminate.
  - reflexivity.
  - discriminate.
  - reflexivity.
Defined.

(** On the debian host only [source] holds headers, and [build] comes back
    all the same. *)
Lemma getHeaderDirs_returns_all_candidates_witness :
  (Kernel.run KernelDemo.machine
     (@Kernel.getHeaderDirs KernelDemo.libs 328193%N) KernelDemo.debian).1.1
  = Kernel.Ok ["/lib/modules/5.2.1-amd64/build";
               "/lib/modules/5.2.1-amd64/source"] /\
  Kernel.KernelVersion (KernelDemo.info KernelDemo.debian) <> "".
Proof.
  split; [vm_compute; reflexivity |].
  refine (proj1 (@getHeaderDirs_returns_all_candidates KernelDemo.libs _
                   KernelDemo.machine 328193%N KernelDemo.debian
                   (Kernel.run KernelDemo.machine
                      (@Kernel.getHeaderDirs KernelDemo.libs 328193%N)
                      KernelDemo.debian).1.2
                   ["/lib/modules/5.2.1-amd64/build";
                    "/lib/modules/5.2.1-amd64/source"]
                   (Kernel.run KernelDemo.machine
                      (@Kernel.getHeaderDirs KernelDemo.libs 328193%N)
                      KernelDemo.debian).2 _)).
  vm_compute. reflexivity.
Defined.


(** A version.h that cannot be read ends the search with a wrapped error,
    before the directory after it is looked at. *)
Example getHeaderDirs_wraps_other_errors :
  (Kernel.run
     (fun c (st : unit) =>
        match c as c' return Kernel.Resp c' * unit with
        | Kernel.Open name =>
            (Kernel.Err (Kernel.mkError false "permission denied"), st)
        | c' => ((KernelDemo.machine c' KernelDemo.debian).1, st)
        end)
     (@Kernel.getHeaderDirs KernelDemo.libs 328193%N) tt).1.1
  = Kernel.Err
      (Kernel.Errorf
         "error validating headers version: permission denied").
Proof. vm_compute. reflexivity. Qed.

Lemma getSysfsHeaderDirs_uses_existing_directory_witness :
  (Kernel.run KernelDemo.machine
     (@Kernel.getSysfsHeaderDirs KernelDemo.libs 328193%N)
     KernelDemo.unpacked).1.1
  = Kernel.Ok ["/tmp/linux-headers-328193"] /\
  Forall (fun ev => Kernel.isCommand (Kernel.called ev) = false /\
                    Kernel.isUnarchive (Kernel.called ev) = false)
    (Kernel.run KernelDemo.machine
       (@Kernel.getSysfsHeaderDirs KernelDemo.libs 328193%N)
       KernelDemo.unpacked).2.
Proof.
  split; [vm_compute; reflexivity |].
  pose proof (@getSysfsHeaderDirs_uses_existing_directory KernelDemo.libs _
                KernelDemo.machine 328193%N KernelDemo.unpacked
                KernelDemo.unpacked KernelDemo.unpacked "/tmp"
                eq_refl eq_refl) as Hcache.
  destruct (Kernel.run KernelDemo.machine
              (@Kernel.getSysfsHeaderDirs KernelDemo.libs 328193%N)
              KernelDemo.unpacked) as [[r st'] log].
  exact (proj1 Hcache).
Defined.

(** On the bare host the module does not load; the caller is told that a
    file does not exist. *)
Lemma FindHeaderDirs_masks_fallback_error_witness :
  (Kernel.run KernelDemo.machine (@Kernel.FindHeaderDirs KernelDemo.libs)
     KernelDemo.bare).1.1
  = Kernel.Err Kernel.ErrNotExist /\
  (Kernel.run KernelDemo.machine
     (@Kernel.getSysfsHeaderDirs KernelDemo.libs 328193%N)
     KernelDemo.bare).1.1
  = Kernel.Err
      (Kernel.Errorf
         "unable to load kheaders module: modprobe: FATAL: Module kheaders not found") /\
  Kernel.ErrNotExist = Kernel.ErrNotExist.
Proof.
  split; [vm_compute; reflexivity |]. split; [vm_compute; reflexivity |].
  refine (@FindHeaderDirs_masks_fallback_error KernelDemo.libs _
            KernelDemo.machine KernelDemo.bare
            (Kernel.run KernelDemo.machine
               (@Kernel.FindHeaderDirs KernelDemo.libs) KernelDemo.bare).1.2
            Kernel.ErrNotExist
            (Kernel.run KernelDemo.machine
               (@Kernel.FindHeaderDirs KernelDemo.libs) KernelDemo.bare).2
            _ _).
  - vm_compute. reflexivity.
  - vm_compute. do 3 apply Exists_cons_tl. by apply Exists_cons_hd.
Defined.

Lemma FindHeaderDirs_Ok_witness :
  (Kernel.run KernelDemo.machine (@Kernel.FindHeaderDirs KernelDemo.libs)
     KernelDemo.withModule).1.1
  = Kernel.Ok ["/tmp/linux-headers-328193"] /\
  ["/tmp/linux-headers-328193"] <> ([] : list string).
Proof.
  split; [vm_compute; reflexivity |].
  refine (proj1 (@FindHeaderDirs_Ok KernelDemo.libs _
                   KernelDemo.machine KernelDemo.withModule
                   (Kernel.run KernelDemo.machine
                      (@Kernel.FindHeaderDirs KernelDemo.libs)
                      KernelDemo.withModule).1.2
                   ["/tmp/linux-headers-328193"]
                   (Kernel.run KernelDemo.machine
                      (@Kernel.FindHeaderDirs KernelDemo.libs)
                      KernelDemo.withModule).2 _)).
  vm_compute. reflexivity.
Defined.

(** With the module that loads, the sysfs fallback loads, unpacks and
    unloads, in this order. *)
Example getSysfsHeaderDirs_load_unpack_unload :
  Kernel.called <$>
    (Kernel.run KernelDemo.machine
       (@Kernel.getSysfsHeaderDirs KernelDemo.libs 328193%N)
       KernelDemo.withModule).2
  = [Kernel.TempDir; Kernel.Stat "/tmp/linux-headers-328193";
     Kernel.Stat "/sys/kernel/kheaders.tar.xz";
     Kernel.Command "modprobe" ["kheaders"];
     Kernel.Stat "/sys/kernel/kheaders.tar.xz";
     Kernel.Unarchive "/sys/kernel/kheaders.tar.xz" "/tmp/linux-headers-328193";
     Kernel.Command "rmmod" ["kheaders"]].
Proof. vm_compute. reflexivity. Qed.

Lemma Sample_twice_witness :
  exists b w1 w2,
    @Sample Demo.package Demo.traceOf2 1%N "prod" Demo.wKeep = Some (b, w1) /\
    @Sample Demo.package Demo.traceOf2 1%N "prod" w1 = Some (b, w2) /\
    spans w2 = spans w1.
Proof.
  apply (@Sample_twice Demo.package Demo.traceOf2 1%N "prod" "prod" Demo.wKeep).
  - discriminate.
  - discriminate.
  - eexists. reflexivity.
Defined.

Lemma applyRate_no_rate_between_witness :
  exists w',
    @applyRate Demo.package true 1%N 0%N Demo.wTenth = Some (tt, w') /\
    forall sp' val,
      spans w' !! 1%N = Some sp' ->
      Metrics sp' !! deprecatedRateKey = Some val ->
      PrimFloat.ltb prioritySamplingRateThresholdTo1 val
      && PrimFloat.ltb val 1%float = false.
Proof.
  apply (@applyRate_no_rate_between Demo.package true 1%N 0%N Demo.wTenth
           (Demo.spanWith 0 Demo.keep)).
  - reflexivity.
  - reflexivity.
Defined.

Lemma applyRate_frame_witness :
  @applyRate Demo.package true 1%N 0%N Demo.wHalf
  = Some (tt, mkWorld (engine Demo.wHalf)
                (<[1%N := withLegacyRate (Demo.spanWith 0 Demo.keep) 1%float]>
                   (spans Demo.wHalf))) /\
  engine (mkWorld (engine Demo.wHalf)
            (<[1%N := withLegacyRate (Demo.spanWith 0 Demo.keep) 1%float]>
               (spans Demo.wHalf))) = engine Demo.wHalf.
Proof.
  assert (@applyRate Demo.package true 1%N 0%N Demo.wHalf
          = Some (tt, mkWorld (engine Demo.wHalf)
                        (<[1%N := withLegacyRate (Demo.spanWith 0 Demo.keep)
                                    1%float]> (spans Demo.wHalf)))) as Hrun
    by (vm_compute; reflexivity).
  split; [exact Hrun |].
  exact (proj1 (@applyRate_frame Demo.package true 1%N 0%N Demo.wHalf _ Hrun)).
Defined.

Lemma Sample_counts_in_band_witness :
  exists signature w1 w',
    @register Demo.package (mkServiceSignature "web" "prod") Demo.wDrop
    = Some (signature, w1) /\
    @Sample Demo.package Demo.traceOf2 1%N "prod" Demo.wDrop
    = Some (false, w') /\
    scoreOf w' signature = (scoreOf w1 signature + 1)%N /\
    sampledOf w' = sampledOf w1.
Proof.
  destruct (@Sample_counts_in_band Demo.package Demo.traceOf2 1%N "prod"
              Demo.wDrop (Demo.spanWith 0 Demo.drop) 0 true)
    as (signature & w1 & w' & Hreg & Hrun & _ & Hscore & _ & Hsampled & _).
  - discriminate.
  - reflexivity.
  - vm_compute. reflexivity.
  - split; discriminate.
  - exists signature, w1, w'. split; [exact Hreg |]. split; [exact Hrun |].
    split; [exact Hscore |]. rewrite Hsampled. apply N.add_0_r.
Defined.

Lemma Run_returns_only_after_Stop_witness :
  let l := Lifecycle.mkLife Lifecycle.RunReturned Lifecycle.CoreAfterDone
             Lifecycle.SyncAfterDone Lifecycle.StopAfterClose true true 0 1 in
  Lifecycle.reachable true l /\
  Lifecycle.exitClosed l = true /\
  (Lifecycle.stopPc l = Lifecycle.StopAfterClose \/
   Lifecycle.stopPc l = Lifecycle.StopReturned).
Proof.
  assert (Lifecycle.reachable true
            (Lifecycle.mkLife Lifecycle.RunReturned Lifecycle.CoreAfterDone
               Lifecycle.SyncAfterDone Lifecycle.StopAfterClose true true 0 1))
    as Hreach.
  { exists [Lifecycle.RunWgAdd; Lifecycle.RunGoCore; Lifecycle.RunGoSync;
            Lifecycle.SyncMakeTicker; Lifecycle.SyncTick;
            Lifecycle.StopCall; Lifecycle.StopSignalCore;
            Lifecycle.CoreRunReturns; Lifecycle.StopSamplerReturns;
            Lifecycle.StopCloseExit; Lifecycle.SyncRecvExit;
            Lifecycle.SyncWgDone; Lifecycle.CoreWgDone;
            Lifecycle.RunWgWait; Lifecycle.RunReturn].
    reflexivity. }
  split; [exact Hreach |].
  exact (Run_returns_only_after_Stop true _ Hreach eq_refl).
Defined.

Lemma wait_group_counter_in_range_witness :
  let l := Lifecycle.mkLife Lifecycle.RunWait Lifecycle.CoreAfterDone
             Lifecycle.SyncSelect Lifecycle.StopClose true false 1 0 in
  Lifecycle.reachable false l /\ 0 <= Lifecycle.wg l <= 2.
Proof.
  assert (Lifecycle.reachable false
            (Lifecycle.mkLife Lifecycle.RunWait Lifecycle.CoreAfterDone
               Lifecycle.SyncSelect Lifecycle.StopClose true false 1 0))
    as Hreach.
  { exists [Lifecycle.RunWgAdd; Lifecycle.RunGoCore; Lifecycle.RunGoSync;
            Lifecycle.SyncMakeTicker;
            Lifecycle.StopCall; Lifecycle.StopSignalCore;
            Lifecycle.CoreRunReturns; Lifecycle.CoreWgDone;
            Lifecycle.StopSamplerReturns].
    reflexivity. }
  split; [exact Hreach |].
  exact (proj1 (wait_group_counter_in_range false _ Hreach)).
Defined.
